(** * A shallow embedding of the core of perf 0.7 ([perf/__init__.py])

    Python values are modelled by [pyval]; a Python dict coming from
    [json.load] is an association list with pairwise distinct keys.
    Python ints and floats are modelled as [Z] and [Q] (the statistics
    code of the significance engine is modelled over the reals).
    Raised exceptions are the [Err] branch of [result]; methods that mutate
    a [Benchmark] return the exception (if any) together with the object's
    state afterwards. *)

From Stdlib Require Import ZArith QArith Qround Qabs Lia.
From Stdlib Require Import Reals Lra.
From Stdlib Require Lqa.
From stdpp Require Import base list gmap strings sorting.
From Stdlib Require Import Ascii.

#[local] Set Warnings "-register-all".
Open Scope Z_scope.

(* ------------------------------------------------------------------ *)
(** ** Python values, exceptions, results *)

Inductive pyval :=
| PNone
| PBool (b : bool)
| PInt (z : Z)
| PFloat (q : Q)
| PStr (s : string)
| PList (l : list pyval)
| PDict (d : list (string * pyval)).

Inductive exn :=
| TypeError (msg : string)
| ValueError (msg : string)
| KeyError (key : string)
| AttributeError (msg : string)
| IndexError
| ZeroDivisionError
| StatisticsError.

Inductive result (A : Type) :=
| Ok (a : A)
| Err (e : exn).
Arguments Ok {A} a.
Arguments Err {A} e.

Global Instance result_ret : MRet result := fun A a => Ok a.
Global Instance result_bind : MBind result :=
  fun A B f r => match r with Ok a => f a | Err e => Err e end.

(** [ValidationError] of the spec is Python's [ValueError]. *)
Definition is_value_error (e : exn) : bool :=
  match e with ValueError _ => true | _ => false end.

(** Truth value of a Python object ([not x]). *)
Definition truthy (v : pyval) : bool :=
  match v with
  | PNone => false
  | PBool b => b
  | PInt z => negb (z =? 0)
  | PFloat q => negb (Qeq_bool q 0)
  | PStr s => negb (String.eqb s "")
  | PList l => negb (length l =? 0)%nat
  | PDict d => negb (length d =? 0)%nat
  end.

(** [dict.get(key, default)] and [dict[key]] on a dict from [json.load]. *)
Fixpoint assoc_get (d : list (string * pyval)) (k : string) : option pyval :=
  match d with
  | [] => None
  | (k', v) :: d' => if String.eqb k k' then Some v else assoc_get d' k
  end.

Definition py_get (obj : pyval) (k : string) (default : pyval) : result pyval :=
  match obj with
  | PDict d => Ok (match assoc_get d k with Some v => v | None => default end)
  | _ => Err (AttributeError "object has no attribute 'get'")
  end.

Definition py_getitem (obj : pyval) (k : string) : result pyval :=
  match obj with
  | PDict d => match assoc_get d k with Some v => Ok v | None => Err (KeyError k) end
  | _ => Err (TypeError "object is not subscriptable")
  end.

(** [for x in obj]: lists yield their items, strings their characters,
    dicts their keys; anything else is not iterable. *)
Definition py_iter (obj : pyval) : result (list pyval) :=
  match obj with
  | PList l => Ok l
  | PStr s => Ok (map (fun c => PStr (String.String c EmptyString))
                      (String.list_ascii_of_string s))
  | PDict d => Ok (map (fun kv => PStr kv.1) d)
  | _ => Err (TypeError "object is not iterable")
  end.

(** [isinstance(value, (int, float)) and value > 0]; [bool] is a subclass
    of [int] in Python. *)
Definition is_positive_number (v : pyval) : bool :=
  match v with
  | PBool b => b
  | PInt z => 0 <? z
  | PFloat q => negb (Qle_bool q 0)
  | _ => false
  end.

(** The numeric value of an int or float. *)
Definition num_val (v : pyval) : Q :=
  match v with
  | PBool b => if b then 1%Q else 0%Q
  | PInt z => inject_Z z
  | PFloat q => q
  | _ => 0%Q
  end.

(** [isinstance(value, int)] together with its integer value. *)
Definition as_int (v : pyval) : option Z :=
  match v with
  | PBool b => Some (if b then 1 else 0)
  | PInt z => Some z
  | _ => None
  end.

(** [str.strip()]: whitespace characters of [str.isspace] in the Latin-1
    range. *)
Definition is_space (c : Ascii.ascii) : bool :=
  let n := Ascii.nat_of_ascii c in
  ((9 <=? n) && (n <=? 13))%nat || ((28 <=? n) && (n <=? 32))%nat
  || (n =? 133)%nat || (n =? 160)%nat.

Fixpoint lstrip (l : list Ascii.ascii) : list Ascii.ascii :=
  match l with
  | [] => []
  | c :: l' => if is_space c then lstrip l' else l
  end.

Definition rstrip (l : list Ascii.ascii) : list Ascii.ascii := rev (lstrip (rev l)).

Definition py_strip (s : string) : string :=
  String.string_of_list_ascii (rstrip (lstrip (String.list_ascii_of_string s))).

(** Python slicing [l[start:]]. *)
Definition py_slice_from {A} (l : list A) (start : Z) : list A :=
  if 0 <=? start then drop (Z.to_nat start) l
  else drop (Z.to_nat (Z.max 0 (Z.of_nat (length l) + start))) l.

(* ------------------------------------------------------------------ *)
(** ** class Benchmark *)

(** The attributes of a [Benchmark] object: [_loops], [_inner_loops],
    [_warmups], [_runs] (tuples stored as lists), the caches [_samples] and
    [_median], and the [metadata] dict. *)
Record bench := mkBench {
  b_loops : Z;
  b_inner_loops : option Z;
  b_warmups : Z;
  b_runs : list (list pyval);
  b_samples : option (list Q);
  b_median : option Q;
  b_metadata : gmap string pyval
}.

(** [_clear_stats_cache] *)
Definition clear_stats_cache (b : bench) : bench :=
  mkBench (b_loops b) (b_inner_loops b) (b_warmups b) (b_runs b)
          None None (b_metadata b).

(** Property setter [loops]. *)
Definition set_loops (b : bench) (value : pyval) : result bench :=
  match as_int value with
  | Some z =>
      if 1 <=? z then
        let b := clear_stats_cache b in
        Ok (mkBench z (b_inner_loops b) (b_warmups b) (b_runs b)
                    (b_samples b) (b_median b) (b_metadata b))
      else Err (ValueError "loops must be an int >= 1")
  | None => Err (ValueError "loops must be an int >= 1")
  end.

(** Property setter [inner_loops]. *)
Definition set_inner_loops (b : bench) (value : pyval) : result bench :=
  let ok (i : option Z) :=
    let b := clear_stats_cache b in
    Ok (mkBench (b_loops b) i (b_warmups b) (b_runs b)
                (b_samples b) (b_median b) (b_metadata b)) in
  match value with
  | PNone => ok None
  | _ =>
      match as_int value with
      | Some z => if 1 <=? z then ok (Some z)
                  else Err (ValueError "inner_loops must be an int >= 1 or None")
      | None => Err (ValueError "inner_loops must be an int >= 1 or None")
      end
  end.

(** Property setter [warmups]. *)
Definition set_warmups (b : bench) (value : pyval) : result bench :=
  match as_int value with
  | Some z =>
      if 0 <=? z then
        let b := clear_stats_cache b in
        Ok (mkBench (b_loops b) (b_inner_loops b) z (b_runs b)
                    (b_samples b) (b_median b) (b_metadata b))
      else Err (ValueError "warmups must be an int >= 0")
  | None => Err (ValueError "warmups must be an int >= 0")
  end.

(** Property setter [name]: stored in the metadata dict. *)
Definition set_name (b : bench) (value : pyval) : result bench :=
  match value with
  | PStr s =>
      let s' := py_strip s in
      if String.eqb s' "" then Err (TypeError "name must be a non-empty string")
      else Ok (mkBench (b_loops b) (b_inner_loops b) (b_warmups b) (b_runs b)
                       (b_samples b) (b_median b)
                       (<["name" := PStr s']> (b_metadata b)))
  | _ => Err (TypeError "name must be a non-empty string")
  end.

(** [Benchmark.__init__(name, loops=1, inner_loops=None, warmups=1,
    metadata=None)]; the attributes not yet assigned start out empty. *)
Definition bench_new (name loops inner_loops warmups : pyval)
    (metadata : option (gmap string pyval)) : result bench :=
  b ← set_loops (mkBench 0 None 0 [] None None ∅) loops;
  b ← set_inner_loops b inner_loops;
  b ← set_warmups b warmups;
  let b := clear_stats_cache
             (mkBench (b_loops b) (b_inner_loops b) (b_warmups b) []
                      (b_samples b) (b_median b) (b_metadata b)) in
  let md := match metadata with Some m => m | None => ∅ end in
  set_name (mkBench (b_loops b) (b_inner_loops b) (b_warmups b) (b_runs b)
                    (b_samples b) (b_median b) md) name.

(** [add_run(samples)]: the exception raised (if any) and the state of the
    object afterwards. *)
Definition add_run (b : bench) (samples : pyval) : option exn * bench :=
  if negb (truthy samples) then
    (Some (ValueError "samples must be a non-empty list of float > 0"), b)
  else
  match py_iter samples with
  | Err e => (Some e, b)
  | Ok values =>
    if existsb (fun v => negb (is_positive_number v)) values then
      (Some (ValueError "samples must be a non-empty list of float > 0"), b)
    else if Z.of_nat (length values) - b_warmups b <? 1 then
      (Some (ValueError "provided samples, but benchmark uses warmups"), b)
    else
      let run := values in
      let append :=
        let b := clear_stats_cache b in
        (None, mkBench (b_loops b) (b_inner_loops b) (b_warmups b)
                       (b_runs b ++ [run]) (b_samples b) (b_median b)
                       (b_metadata b)) in
      match b_runs b with
      | r0 :: _ =>
          if negb (length run =? length r0)%nat then
            (Some (ValueError "different number of samples"), b)
          else append
      | [] => append
      end
  end.

(** [get_nrun], [get_runs], [get_nsample]. *)
Definition get_nrun (b : bench) : Z := Z.of_nat (length (b_runs b)).

Definition get_runs (b : bench) : list (list pyval) := b_runs b.

Definition get_nsample (b : bench) : Z :=
  match b_runs b with
  | [] => 0
  | r0 :: _ => Z.of_nat (length (b_runs b)) * (Z.of_nat (length r0) - b_warmups b)
  end.

(** [get_loops()] *)
Definition get_loops (b : bench) : result Z :=
  let loops := b_loops b in
  if loops =? 0 then Err (ValueError "loops is zero")
  else Ok (match b_inner_loops b with Some i => loops * i | None => loops end).

(** The loop body of [get_samples()]: [sample / loops] for every sample
    after the warmups, run after run. *)
Definition compute_samples (runs : list (list pyval)) (warmups loops : Z) : list Q :=
  flat_map (fun run_samples =>
              map (fun sample => (num_val sample / inject_Z loops)%Q)
                  (py_slice_from run_samples warmups))
           runs.

(** [get_samples()]: the cached value, or the computed one, which is then
    cached. *)
Definition get_samples (b : bench) : result (list Q) * bench :=
  match b_samples b with
  | Some s => (Ok s, b)
  | None =>
      match get_loops b with
      | Err e => (Err e, b)
      | Ok loops =>
          let s := compute_samples (b_runs b) (b_warmups b) loops in
          (Ok s, mkBench (b_loops b) (b_inner_loops b) (b_warmups b) (b_runs b)
                         (Some s) (b_median b) (b_metadata b))
      end
  end.

(** Sequences of calls on one [Benchmark] object. *)
Inductive bench_call :=
| CallAddRun (samples : pyval)
| CallGetSamples.

Definition bench_call_step (b : bench) (c : bench_call) : bench :=
  match c with
  | CallAddRun samples => snd (add_run b samples)
  | CallGetSamples => snd (get_samples b)
  end.

Definition run_calls (b : bench) (calls : list bench_call) : bench :=
  fold_left bench_call_step calls b.

(* ------------------------------------------------------------------ *)
(** ** JSON records of a benchmark *)

(** [dict(items)] for the items of a dict from [json.load]. *)
Definition dict_of_items (d : list (string * pyval)) : gmap string pyval :=
  fold_left (fun m kv => <[kv.1 := kv.2]> m) d ∅.

(** [d[k] = v] on a dict: in place when [k] is present, appended otherwise. *)
Fixpoint dict_setitem (d : list (string * pyval)) (k : string) (v : pyval)
    : list (string * pyval) :=
  match d with
  | [] => [(k, v)]
  | (k', v') :: d' =>
      if String.eqb k k' then (k', v) :: d' else (k', v') :: dict_setitem d' k v
  end.

(** [Benchmark._as_json()], keys in insertion order. *)
Definition as_json (b : bench) : list (string * pyval) :=
  [("runs", PList (map PList (b_runs b)))]
  ++ (if negb (b_warmups b =? 0) then [("warmups", PInt (b_warmups b))] else [])
  (* [if self.loops is not None]: the loops attribute is an int, never None *)
  ++ [("loops", PInt (b_loops b))]
  ++ (match b_inner_loops b with Some i => [("inner_loops", PInt i)] | None => [] end)
  ++ (if negb (size (b_metadata b) =? 0)%nat
      then [("metadata", PDict (map_to_list (b_metadata b)))] else []).

(** [for run_data in data['runs']: bench.add_run(run_data)] *)
Fixpoint add_runs (b : bench) (runs : list pyval) : result bench :=
  match runs with
  | [] => Ok b
  | run_data :: rest =>
      match add_run b run_data with
      | (Some e, _) => Err e
      | (None, b') => add_runs b' rest
      end
  end.

(** [Benchmark._json_load(data)] *)
Definition json_load (data : pyval) : result bench :=
  warmups ← py_get data "warmups" (PInt 0);
  loops ← py_get data "loops" (PInt 1);
  inner_loops ← py_get data "inner_loops" PNone;
  metadata ← py_get data "metadata" PNone;
  name ← py_get metadata "name" PNone;
  let md := match metadata with PDict d => dict_of_items d | _ => ∅ end in
  bench ← bench_new name loops inner_loops warmups (Some md);
  runs ← py_getitem data "runs";
  run_list ← py_iter runs;
  add_runs bench run_list.

(* ------------------------------------------------------------------ *)
(** ** class BenchmarkSuite *)

(** A suite is a dict from benchmark names to benchmarks. *)
Abbreviation suite := (gmap string bench).

(** [BenchmarkSuite._add_benchmark(name, benchmark)] *)
Definition suite_add (s : suite) (name : string) (b : bench) : result suite :=
  match s !! name with
  | Some _ => Err (ValueError "duplicate benchmark name")
  | None => Ok (<[name := b]> s)
  end.

(** [version == n] for a JSON value. *)
Definition py_eq_int (v : pyval) (n : Z) : bool :=
  match v with
  | PBool b => (if b then 1 else 0) =? n
  | PInt z => z =? n
  | PFloat q => Qeq_bool q (inject_Z n)
  | _ => false
  end.

Definition JSON_VERSION : Z := 2.

(** [for name, bench_data in benchmarks_json.items(): ...] *)
Fixpoint load_benchmarks (s : suite) (items : list (string * pyval)) : result suite :=
  match items with
  | [] => Ok s
  | (name, bench_data) :: rest =>
      benchmark ← json_load bench_data;
      s ← suite_add s name benchmark;
      load_benchmarks s rest
  end.

(** The version-1 branch of [_load_json]: migrate [bench_file['benchmark']]
    to the items of a version-2 [benchmarks] dict.  The model keys the suite
    by strings: a truthy non-string version-1 name is refused with
    [TypeError] (the code accepts it as a dict key when the record's
    metadata already holds a name).  A non-dict metadata value is refused
    with [TypeError] (the code fails on it too, in [_load_json] or in
    [_json_load]). *)
Definition migrate_v1 (bench_file : pyval) : result (list (string * pyval)) :=
  bench_data ← py_getitem bench_file "benchmark";
  name ← py_getitem bench_data "name";
  let name := if truthy name then name else PStr "benchmark" in
  md ← py_getitem bench_data "metadata";
  bench_data ←
    match md, bench_data with
    | PDict d, PDict bd =>
        match assoc_get d "name" with
        | Some _ => Ok bench_data
        | None => Ok (PDict (dict_setitem bd "metadata" (PDict (dict_setitem d "name" name))))
        end
    | _, _ => Err (TypeError "metadata must be a dict")
    end;
  match name with
  | PStr key => Ok [(key, bench_data)]
  | _ => Err (TypeError "benchmark name must be a string")
  end.

(** [BenchmarkSuite._load_json(filename, bench_file)] on the document
    returned by [json.load]. *)
Definition load_json (bench_file : pyval) : result suite :=
  version ← py_get bench_file "version" PNone;
  items ←
    (if py_eq_int version JSON_VERSION then
       benchmarks_json ← py_getitem bench_file "benchmarks";
       match benchmarks_json with
       | PDict d => Ok d
       | _ => Err (AttributeError "object has no attribute 'items'")
       end
     else if py_eq_int version 1 then migrate_v1 bench_file
     else Err (ValueError "file format version not supported"));
  s ← load_benchmarks ∅ items;
  if (size s =? 0)%nat then Err (ValueError "the file doesn't contain any benchmark")
  else Ok s.

(** The document written by [BenchmarkSuite.dump()] (and by
    [Benchmark.dump()] on a one-benchmark suite); [json.dump] followed by
    [json.load] gives back this tree, dict keys sorted. *)
Definition suite_dump (s : suite) : pyval :=
  PDict [("version", PInt JSON_VERSION);
         ("benchmarks", PDict (map (fun nb => (nb.1, PDict (as_json nb.2)))
                                   (map_to_list s)))].

(* ------------------------------------------------------------------ *)
(** ** Student's t-test *)

(** [_T_DIST_95_CONF_LEVELS] *)
Definition T_DIST_95_CONF_LEVELS : list Q :=
  [0; 12706#1000; 4303#1000; 3182#1000; 2776#1000;
   2571#1000; 2447#1000; 2365#1000; 2306#1000; 2262#1000;
   2228#1000; 2201#1000; 2179#1000; 2160#1000; 2145#1000;
   2131#1000; 2120#1000; 2110#1000; 2101#1000; 2093#1000;
   2086#1000; 2080#1000; 2074#1000; 2069#1000; 2064#1000;
   2060#1000; 2056#1000; 2052#1000; 2048#1000; 2045#1000;
   2042#1000]%Q.

(** Python list subscript [l[i]], negative indices counting from the end. *)
Definition py_index {A} (l : list A) (i : Z) : result A :=
  let j := if i <? 0 then i + Z.of_nat (length l) else i in
  if j <? 0 then Err IndexError
  else match l !! Z.to_nat j with Some x => Ok x | None => Err IndexError end.

(** [int(round(x))] (Python 3: to the nearest integer, ties to even). *)
Definition py_round (x : Q) : Z :=
  let f := Qfloor x in
  let r := (x - inject_Z f)%Q in
  if Qle_bool (1#2) r then
    if Qeq_bool r (1#2) then (if Z.even f then f else f + 1) else f + 1
  else f.

(** [_tdist95conf_level(df)] *)
Definition tdist95conf_level (df : Q) : result Q :=
  let df := py_round df in
  let highest_table_df := Z.of_nat (length T_DIST_95_CONF_LEVELS) in
  if 200 <=? df then Ok (1960#1000)%Q
  else if 100 <=? df then Ok (1984#1000)%Q
  else if 80 <=? df then Ok (1990#1000)%Q
  else if 60 <=? df then Ok (2000#1000)%Q
  else if 50 <=? df then Ok (2009#1000)%Q
  else if 40 <=? df then Ok (2021#1000)%Q
  else if highest_table_df <=? df then
    py_index T_DIST_95_CONF_LEVELS (highest_table_df - 1)
  else py_index T_DIST_95_CONF_LEVELS df.

Local Open Scope R_scope.

(** [x / y] on floats: [ZeroDivisionError] on a zero divisor. *)
Definition py_div (x y : R) : result R :=
  if Req_EM_T y 0 then Err ZeroDivisionError else Ok (x / y).

(** [math.sqrt(x)] *)
Definition py_sqrt (x : R) : result R :=
  if Rlt_dec x 0 then Err (ValueError "math domain error") else Ok (sqrt x).

(** [math.fsum] (exact summation) *)
Definition fsum (l : list R) : R := fold_right Rplus 0 l.

(** [statistics.mean] *)
Definition mean (l : list R) : result R :=
  match l with
  | [] => Err StatisticsError
  | _ => Ok (fsum l / INR (length l))
  end.

(** [_pooled_sample_variance(sample1, sample2)] *)
Definition pooled_sample_variance (sample1 sample2 : list R) : result R :=
  let deg_freedom := (Z.of_nat (length sample1) + Z.of_nat (length sample2) - 2)%Z in
  mean1 ← mean sample1;
  let squares1 := map (fun x => (x - mean1) ^ 2) sample1 in
  mean2 ← mean sample2;
  let squares2 := map (fun x => (x - mean2) ^ 2) sample2 in
  py_div (fsum squares1 + fsum squares2) (IZR deg_freedom).

(** [_tscore(sample1, sample2)] *)
Definition tscore (sample1 sample2 : list R) : result R :=
  if negb (length sample1 =? length sample2)%nat then
    Err (ValueError "different number of samples")
  else
    psv ← pooled_sample_variance sample1 sample2;
    error ← py_div psv (INR (length sample1));
    m1 ← mean sample1;
    m2 ← mean sample2;
    s ← py_sqrt (error * 2);
    py_div (m1 - m2) s.

(** [is_significant(sample1, sample2)] *)
Definition is_significant (sample1 sample2 : list R) : result (bool * R) :=
  let deg_freedom := (Z.of_nat (length sample1) + Z.of_nat (length sample2) - 2)%Z in
  critical_value ← tdist95conf_level (inject_Z deg_freedom);
  t_score ← tscore sample1 sample2;
  Ok ((if Rle_dec (Q2R critical_value) (Rabs t_score) then true else false), t_score).

Local Close Scope R_scope.

(* ------------------------------------------------------------------ *)
(** ** Number formatting *)

(** [str(n)] for an int. *)
Fixpoint dec_digits (fuel : nat) (n : Z) (acc : string) : string :=
  match fuel with
  | O => acc
  | S fuel' =>
      let acc := String.String (Ascii.ascii_of_nat (48 + Z.to_nat (n mod 10))) acc in
      if n <? 10 then acc else dec_digits fuel' (n / 10) acc
  end.

Definition py_str_int (n : Z) : string :=
  let fuel := S (Z.to_nat (Z.log2 (Z.abs n))) in
  if n <? 0 then String.append "-" (dec_digits fuel (- n) "")
  else dec_digits fuel n "".

(** [int.bit_length()] *)
Definition bit_length (n : Z) : Z :=
  if n =? 0 then 0 else Z.log2 (Z.abs n) + 1.

(** [while x >= 10: x //= 10; pow10 += 1] *)
Fixpoint pow10_loop (fuel : nat) (x pow10 : Z) : Z :=
  match fuel with
  | O => pow10
  | S fuel' => if 10 <=? x then pow10_loop fuel' (x / 10) (pow10 + 1) else pow10
  end.

(** [_format_number(number, unit=None, units=None)] on an int. *)
Definition format_number (number : Z) (unit units : option string) : string :=
  let plural := 1 <? Z.abs number in
  let number_str :=
    if (10000 <=? number) && (number mod 10 =? 0) then
      String.append "10^" (py_str_int (pow10_loop (S (Z.to_nat (Z.log2 number))) number 0))
    else if (8192 <? number) && (number mod 2 =? 0) then
      String.append "2^" (py_str_int (bit_length number - 1))
    else py_str_int number in
  match unit with
  | None | Some "" => number_str
  | Some u =>
      if plural then
        let units := match units with
                     | None | Some "" => String.append u "s"
                     | Some us => us
                     end in
        String.append number_str (String.append " " units)
      else String.append number_str (String.append " " u)
  end%string.

(* ------------------------------------------------------------------ *)
(** ** One benchmark in a file *)

(** Property [name]: [self.metadata.get('name', None)]. *)
Definition bench_name (b : bench) : pyval :=
  match b_metadata b !! "name" with Some v => v | None => PNone end.

(** [BenchmarkSuite.add_benchmark(benchmark)]: [_add_benchmark] under the
    benchmark's name.  The model keys suites by strings: a benchmark whose
    name is not a string is refused (the name setter never stores one). *)
Definition suite_add_benchmark (s : suite) (b : bench) : result suite :=
  match bench_name b with
  | PStr name => suite_add s name b
  | _ => Err (TypeError "benchmark name must be a string")
  end.

(** The sort key [operator.attrgetter('name')] on the names the name setter
    stores (strings); Python orders strings by code points, as [String.leb]
    does on ASCII text. *)
Definition name_key (b : bench) : string :=
  match bench_name b with PStr s => s | _ => "" end.

Definition name_le (x y : bench) : Prop := String.leb (name_key x) (name_key y) = true.

#[global] Instance name_le_dec : RelDecision name_le :=
  fun x y => decide (String.leb (name_key x) (name_key y) = true).

(** [BenchmarkSuite.get_benchmarks()]: [sorted(self.values(), key=...)].
    Benchmarks of equal names follow the map's order, not the dict's
    insertion order. *)
Definition get_benchmarks (s : suite) : list bench :=
  merge_sort name_le (map_to_list s).*2.

(** [Benchmark.load(file)] on the document returned by [json.load]. *)
Definition bench_load (bench_file : pyval) : result bench :=
  suite ← load_json bench_file;
  let benchmarks := get_benchmarks suite in
  if negb (length benchmarks =? 1)%nat then
    Err (ValueError (String.append "expected 1 benchmark, got "
                                   (py_str_int (Z.of_nat (length benchmarks)))))
  else py_index benchmarks 0.

(** [Benchmark.dump(file)]: the document written for a fresh suite holding
    this benchmark. *)
Definition bench_dump (b : bench) : result pyval :=
  suite ← suite_add_benchmark ∅ b;
  Ok (suite_dump suite).

(* ------------------------------------------------------------------ *)
(** ** CPU and run lists *)

(** [str.split(sep)] with a one-character separator. *)
Fixpoint split_on (sep : Ascii.ascii) (l : list Ascii.ascii) : list (list Ascii.ascii) :=
  match l with
  | [] => [[]]
  | c :: l' =>
      let parts := split_on sep l' in
      if Ascii.eqb c sep then [] :: parts
      else match parts with
           | p :: ps => (c :: p) :: ps
           | [] => [[c]]
           end
  end.

Definition py_split (s : string) (sep : Ascii.ascii) : list string :=
  map String.string_of_list_ascii (split_on sep (String.list_ascii_of_string s)).

(** [str.split(sep, 1)] with a one-character separator. *)
Fixpoint split_once (sep : Ascii.ascii) (l : list Ascii.ascii) : list (list Ascii.ascii) :=
  match l with
  | [] => [[]]
  | c :: l' =>
      if Ascii.eqb c sep then [[]; l']
      else match split_once sep l' with
           | p :: ps => (c :: p) :: ps
           | [] => [[c]]
           end
  end.

Definition py_split1 (s : string) (sep : Ascii.ascii) : list string :=
  map String.string_of_list_ascii (split_once sep (String.list_ascii_of_string s)).

(** [c in s] for a one-character string [c]. *)
Definition py_contains (s : string) (c : Ascii.ascii) : bool :=
  existsb (fun c' => Ascii.eqb c' c) (String.list_ascii_of_string s).

Definition is_digit (c : Ascii.ascii) : bool :=
  let n := Ascii.nat_of_ascii c in ((48 <=? n) && (n <=? 57))%nat.

Definition digit_val (c : Ascii.ascii) : Z := Z.of_nat (Ascii.nat_of_ascii c) - 48.

(** The digits after the first one of an int literal; a single underscore
    may separate two digits. *)
Fixpoint parse_digits_from (l : list Ascii.ascii) (acc : Z) : option Z :=
  match l with
  | [] => Some acc
  | c :: l' =>
      if is_digit c then parse_digits_from l' (acc * 10 + digit_val c)
      else if Ascii.eqb c "_"%char then
        match l' with
        | d :: l'' =>
            if is_digit d then parse_digits_from l'' (acc * 10 + digit_val d) else None
        | [] => None
        end
      else None
  end.

Definition parse_digits (l : list Ascii.ascii) : option Z :=
  match l with
  | c :: l' => if is_digit c then parse_digits_from l' (digit_val c) else None
  | [] => None
  end.

(** [int(s)] on a str (Python 3.6 and later, ASCII text): surrounding
    whitespace, an optional sign, then decimal digits. *)
Definition py_int (s : string) : result Z :=
  let l := String.list_ascii_of_string (py_strip s) in
  let '(neg, ds) :=
    match l with
    | c :: l' =>
        if Ascii.eqb c "-"%char then (true, l')
        else if Ascii.eqb c "+"%char then (false, l')
        else (false, l)
    | [] => (false, l)
    end in
  match parse_digits ds with
  | Some n => Ok (if neg then - n else n)
  | None => Err (ValueError "invalid literal for int() with base 10")
  end.

(** [range(start, stop)] *)
Definition py_range (start stop : Z) : list Z :=
  map (fun n => start + Z.of_nat n) (seq 0 (Z.to_nat (stop - start))).

(** The body of the loops of [_parse_run_list] and [_parse_cpu_list] on one
    comma-separated part: a range [first-last] or a single int. *)
Definition parse_list_part (part : string) : result (list Z) :=
  let part := py_strip part in
  if py_contains part "-"%char then
    let parts := py_split1 part "-"%char in
    first ← (s ← py_index parts 0; py_int s);
    last ← (s ← py_index parts 1; py_int s);
    Ok (py_range first (last + 1))
  else
    x ← py_int part;
    Ok [x].

(** [for part in text.split(','): ...], stopping at the first exception. *)
Fixpoint parse_list_parts (parts : list string) : result (list Z) :=
  match parts with
  | [] => Ok []
  | part :: rest =>
      xs ← parse_list_part part;
      ys ← parse_list_parts rest;
      Ok (xs ++ ys)
  end.

(** [_parse_run_list(run_list)] *)
Definition parse_run_list (run_list : string) : result (list Z) :=
  let run_list := py_strip run_list in
  runs ←
    (match parse_list_parts (py_split run_list ","%char) with
     | Err e => if is_value_error e then Err (ValueError "invalid list of runs") else Err e
     | Ok runs => Ok runs
     end);
  match runs with
  | [] => Err (ValueError "empty list of runs")
  | r0 :: rest =>
      if fold_left Z.min rest r0 <? 1 then Err (ValueError "number of runs starts at 1")
      else Ok (map (fun run => run - 1) runs)
  end.

(** [_parse_cpu_list(cpu_list)]; Python's [None] is [Ok None]. *)
Definition parse_cpu_list (cpu_list : string) : result (option (list Z)) :=
  let cpu_list := py_strip cpu_list in
  if String.eqb cpu_list "" then Ok None
  else
    cpus ← parse_list_parts (py_split cpu_list ","%char);
    Ok (Some cpus).

(** ['%s-%s' % (first, last)] if [first != last] else [str(last)] *)
Definition cpu_range_part (first last : Z) : string :=
  if negb (first =? last)
  then String.append (py_str_int first) (String.append "-" (py_str_int last))
  else py_str_int last.

(** The loop of [_format_cpu_list]: [first] and [last] are [None] together
    or ints together, so the state is [None] or [Some (first, last)]. *)
Fixpoint format_cpu_loop (cpus : list Z) (st : option (Z * Z)) (parts : list string)
    : option (Z * Z) * list string :=
  match cpus with
  | [] => (st, parts)
  | cpu :: rest =>
      match st with
      | None => format_cpu_loop rest (Some (cpu, cpu)) parts
      | Some (first, last) =>
          if negb (cpu =? last + 1)
          then format_cpu_loop rest (Some (cpu, cpu)) (parts ++ [cpu_range_part first last])
          else format_cpu_loop rest (Some (first, cpu)) parts
      end
  end.

(** [_format_cpu_list(cpus)]; on no cpu, [first == last == None] and the
    last part is [str(None)]. *)
Definition format_cpu_list (cpus : list Z) : string :=
  let '(st, parts) := format_cpu_loop (merge_sort Z.le cpus) None [] in
  let last_part := match st with
                   | Some (first, last) => cpu_range_part first last
                   | None => "None"%string
                   end in
  String.concat "," (parts ++ [last_part]).

(** The characters of the text written by [_format_cpu_list]. *)
Definition cpu_char (c : Ascii.ascii) : bool :=
  is_digit c || Ascii.eqb c "-"%char.

(** The value of a run of decimal digits read after [k]. *)
Definition digits_value (ds : list Ascii.ascii) (k : Z) : Z :=
  fold_left (fun a c => a * 10 + digit_val c) ds k.

(** The parts of [_format_cpu_list]'s output, as [(first, last)] pairs,
    and the cpus each of them stands for. *)
Definition range_part (r : Z * Z) : string := cpu_range_part r.1 r.2.

Definition range_of (r : Z * Z) : list Z := py_range r.1 (r.2 + 1).

(* ------------------------------------------------------------------ *)
(** ** median(), _get_raw_samples() and _get_worker_samples() *)

#[global] Instance Qle_dec_rel : RelDecision Qle :=
  fun x y => match Qlt_le_dec y x with
             | left H => right (Qlt_not_le _ _ H)
             | right H => left H
             end.

#[global] Instance Qlt_dec_rel : RelDecision Qlt :=
  fun x y => match Qlt_le_dec x y with
             | left H => left H
             | right H => right (Qle_not_lt _ _ H)
             end.

(** [statistics.median(data)]: the middle value of the sorted data, or the
    mean of the two middle values. *)
Definition statistics_median (data : list Q) : result Q :=
  let data := merge_sort Qle data in
  let n := length data in
  if (n =? 0)%nat then Err StatisticsError
  else if Nat.odd n then py_index data (Z.of_nat (n / 2))
  else
    x ← py_index data (Z.of_nat (n / 2) - 1);
    y ← py_index data (Z.of_nat (n / 2));
    Ok ((x + y) / 2)%Q.

(** What [median()] returns or raises; [MedianAssertionError] is the
    failure of its [assert]. *)
Inductive median_result :=
| MedianOk (m : Q)
| MedianErr (e : exn)
| MedianAssertionError.

(** [median()]: the cached value, or [statistics.median] of [get_samples()],
    stored in [_median] before the [assert]. *)
Definition median (b : bench) : median_result * bench :=
  match b_median b with
  | Some m => (MedianOk m, b)
  | None =>
      let '(r, b) := get_samples b in
      match r with
      | Err e => (MedianErr e, b)
      | Ok samples =>
          match statistics_median samples with
          | Err e => (MedianErr e, b)
          | Ok m =>
              let b := mkBench (b_loops b) (b_inner_loops b) (b_warmups b) (b_runs b)
                               (b_samples b) (Some m) (b_metadata b) in
              if Qeq_bool m 0 then (MedianAssertionError, b) else (MedianOk m, b)
          end
      end
  end.

(** [_get_raw_samples()] *)
Definition get_raw_samples (b : bench) : list pyval :=
  flat_map (fun run_samples => py_slice_from run_samples (b_warmups b)) (b_runs b).

(** [_get_worker_samples(run_bench)] *)
Definition get_worker_samples (self run_bench : bench) : result (list pyval) :=
  if negb (length (b_runs run_bench) =? 1)%nat
  then Err (ValueError "A worker result must have exactly one run")
  else if negb (bool_decide (b_loops run_bench = b_loops self))
  then Err (ValueError "loops value is different")
  else if negb (bool_decide (b_inner_loops run_bench = b_inner_loops self))
  then Err (ValueError "inner_loops value is different")
  else if negb (bool_decide (b_warmups run_bench = b_warmups self))
  then Err (ValueError "warmups value is different")
  else py_index (b_runs run_bench) 0.

(* ------------------------------------------------------------------ *)
(** ** Statements of the specification, in its own words *)

(** The derived samples as the spec describes them: for every run in run
    order, drop the first [W] entries and divide every remaining raw value
    by [L*I]. *)
Definition spec_samples (L I W : Z) (runs : list (list pyval)) : list Q :=
  concat (map (fun run => map (fun x => (num_val x / inject_Z (L * I))%Q)
                              (drop (Z.to_nat W) run)) runs).

(** The spec's critical value for an already rounded [df]. *)
Definition critical_value_95_spec (df : Z) : Q :=
  if 200 <=? df then 1960#1000
  else if 100 <=? df then 1984#1000
  else if 80 <=? df then 1990#1000
  else if 60 <=? df then 2000#1000
  else if 50 <=? df then 2009#1000
  else if 40 <=? df then 2021#1000
  else if Z.of_nat (length T_DIST_95_CONF_LEVELS) <=? df then 2042#1000
  else nth (Z.to_nat df) T_DIST_95_CONF_LEVELS 0%Q.

Local Open Scope R_scope.

(** Mean, sum of squared deviations, pooled variance and t score as the
    spec writes them. *)
Definition meanR (l : list R) : R := fsum l / INR (length l).

Definition sum_sq_dev (l : list R) : R :=
  fsum (map (fun x => (x - meanR l) ^ 2) l).

Definition pooled_variance_spec (a b : list R) : R :=
  (sum_sq_dev a + sum_sq_dev b) / (INR (length a) + INR (length b) - 2).

Definition t_score_spec (a b : list R) : R :=
  (meanR a - meanR b) / sqrt (2 * pooled_variance_spec a b / INR (length a)).

Local Close Scope R_scope.

(** The version-1 document of the spec's example,
    [{"version":1,"benchmark":{"runs":[[1,2,3]],"metadata":{}}}], and the
    same record with an empty ["name"] entry. *)
Definition v1_example_doc : pyval :=
  PDict [("version", PInt 1);
         ("benchmark", PDict [("runs", PList [PList [PInt 1; PInt 2; PInt 3]]);
                              ("metadata", PDict [])])].

Definition v1_named_doc : pyval :=
  PDict [("version", PInt 1);
         ("benchmark", PDict [("name", PStr "");
                              ("runs", PList [PList [PInt 1; PInt 2; PInt 3]]);
                              ("metadata", PDict [])])].

(** The benchmarks the claims are about: built by the constructor and then
    driven by [add_run] and [get_samples] calls. *)
Definition built (b : bench) : Prop :=
  exists name loops inner_loops warmups metadata b0 calls,
    bench_new name loops inner_loops warmups metadata = Ok b0 /\
    b = run_calls b0 calls.

(** The fields a serialized record carries. *)
Definition bench_fields (b : bench)
    : list (list pyval) * Z * option Z * Z * gmap string pyval :=
  (b_runs b, b_loops b, b_inner_loops b, b_warmups b, b_metadata b).

(** [get_loops()] of a benchmark whose loops are not zero. *)
Definition loops_value (b : bench) : Z :=
  match b_inner_loops b with Some i => b_loops b * i | None => b_loops b end.

(** The invariant the constructor establishes and the calls keep. *)
Definition bench_wf (b : bench) : Prop :=
  1 <= b_loops b /\
  (forall i, b_inner_loops b = Some i -> 1 <= i) /\
  0 <= b_warmups b /\
  (forall r, In r (b_runs b) ->
     Forall (fun v => is_positive_number v = true) r /\
     b_warmups b + 1 <= Z.of_nat (length r)) /\
  (forall r r', In r (b_runs b) -> In r' (b_runs b) -> length r = length r') /\
  (b_samples b = None \/
   b_samples b = Some (compute_samples (b_runs b) (b_warmups b) (loops_value b))) /\
  (exists s, b_metadata b !! "name"%string = Some (PStr s) /\
     py_strip s = s /\ s <> ""%string).


(** [Qle] is a total order, as [sorted] uses it on floats. *)
#[global] Instance Qle_Transitive : Transitive Qle := Qle_trans.

#[global] Instance Qle_Total : Total Qle :=
  fun x y => match Qlt_le_dec x y with
             | left H => or_introl (Qlt_le_weak _ _ H)
             | right H => or_intror H
             end.

(** A decidable sufficient condition for [bench_wf], with an empty samples
    cache. *)
Definition bench_wfb (b : bench) : bool :=
  (1 <=? b_loops b) &&
  match b_inner_loops b with Some i => 1 <=? i | None => true end &&
  (0 <=? b_warmups b) &&
  forallb (fun r => forallb is_positive_number r &&
                    (b_warmups b + 1 <=? Z.of_nat (length r))) (b_runs b) &&
  match b_runs b with
  | [] => true
  | r0 :: _ => forallb (fun r => (length r =? length r0)%nat) (b_runs b)
  end &&
  match b_samples b with None => true | Some _ => false end &&
  match b_metadata b !! "name"%string with
  | Some (PStr s) => String.eqb (py_strip s) s && negb (String.eqb s "")
  | _ => false
  end.

(** The critical value [_tdist95conf_level] gives at an integer number of
    degrees of freedom, [0] where its table lookup fails. *)
Definition level_at (z : Z) : Q :=
  match tdist95conf_level (inject_Z z) with Ok c => c | Err _ => 0%Q end.

(* ================================================================== *)
(** * Properties *)

(** *** Number formatting *)

Lemma pow10_loop_spec (fuel : nat) (x p : Z) :
  1 <= x < 10 ^ Z.of_nat fuel ->
  exists k, 0 <= k /\ 10 ^ k <= x < 10 ^ (k + 1) /\ pow10_loop fuel x p = p + k.
Proof.
  revert x p; induction fuel as [|fuel IH]; intros x p Hx.
  - simpl in Hx. lia.
  - rewrite Nat2Z.inj_succ, Z.pow_succ_r in Hx by lia.
    simpl. destruct (10 <=? x) eqn:E.
    + apply Z.leb_le in E.
      assert (Hq : 1 <= x / 10 < 10 ^ Z.of_nat fuel).
      { split.
        - apply Z.div_le_lower_bound; lia.
        - apply Z.div_lt_upper_bound; lia. }
      destruct (IH (x / 10) (p + 1) Hq) as (k & Hk0 & Hk & ->).
      exists (k + 1). split; [lia|]. split; [|lia].
      pose proof (Z.div_mod x 10 ltac:(lia)) as Hdm.
      pose proof (Z.mod_pos_bound x 10 ltac:(lia)) as Hm.
      rewrite !Z.pow_add_r in * by lia. simpl in *. lia.
    + apply Z.leb_gt in E. exists 0. simpl. lia.
Qed.

Lemma format_number_pow10 (n : Z) :
  10000 <= n ->
  exists k, 10 ^ k <= n < 10 ^ (k + 1) /\
    pow10_loop (S (Z.to_nat (Z.log2 n))) n 0 = k.
Proof.
  intros Hn.
  destruct (pow10_loop_spec (S (Z.to_nat (Z.log2 n))) n 0) as (k & _ & Hk & Hv).
  - split; [lia|].
    pose proof (Z.log2_spec n ltac:(lia)) as [_ H2].
    pose proof (Z.log2_nonneg n).
    rewrite Nat2Z.inj_succ, Z2Nat.id by lia.
    eapply Z.lt_le_trans; [exact H2|].
    rewrite <- Z.add_1_r. apply Z.pow_le_mono_l. lia.
  - exists k. split; [exact Hk|]. lia.
Qed.

(** C9: with no unit, [format_number] renders 16384 as "2^14", 10000 as
    "10^4" and 7 as "7"; an int [n >= 10000] that is a multiple of 10 is
    rendered "10^k", an int [n > 8192] that is a multiple of 2 (and not in
    the first case) "2^k", any other int as [str(n)].  Here [k] is the
    integer part of the logarithm of [n] (base 10 or 2), so that 20000 is
    rendered "10^4" as well. *)
Theorem format_number_abbreviations :
  format_number 16384 None None = "2^14"%string /\
  format_number 10000 None None = "10^4"%string /\
  format_number 7 None None = "7"%string /\
  forall n : Z,
    (10000 <= n /\ n mod 10 = 0 ->
       exists k, 10 ^ k <= n < 10 ^ (k + 1) /\
         format_number n None None = String.append "10^" (py_str_int k)) /\
    (~ (10000 <= n /\ n mod 10 = 0) -> 8192 < n /\ n mod 2 = 0 ->
       exists k, 2 ^ k <= n < 2 ^ (k + 1) /\
         format_number n None None = String.append "2^" (py_str_int k)) /\
    (~ (10000 <= n /\ n mod 10 = 0) -> ~ (8192 < n /\ n mod 2 = 0) ->
       format_number n None None = py_str_int n).
Proof.
  split; [reflexivity|]. split; [reflexivity|]. split; [reflexivity|].
  intros n. unfold format_number. split; [|split].
  - intros [H1 H2].
    destruct (format_number_pow10 n H1) as (k & Hk & Hv).
    exists k. split; [exact Hk|].
    replace ((10000 <=? n) && (n mod 10 =? 0)) with true
      by (symmetry; apply andb_true_iff; split; [apply Z.leb_le | apply Z.eqb_eq]; lia).
    rewrite Hv. reflexivity.
  - intros Hn [H1 H2].
    exists (Z.log2 n). rewrite Z.add_1_r.
    split; [apply Z.log2_spec; lia|].
    replace ((10000 <=? n) && (n mod 10 =? 0)) with false.
    2:{ symmetry. apply not_true_iff_false. rewrite andb_true_iff, Z.leb_le, Z.eqb_eq.
        exact Hn. }
    replace ((8192 <? n) && (n mod 2 =? 0)) with true
      by (symmetry; apply andb_true_iff; split; [apply Z.ltb_lt | apply Z.eqb_eq]; lia).
    unfold bit_length. replace (n =? 0) with false by (symmetry; apply Z.eqb_neq; lia).
    rewrite Z.abs_eq by lia. do 3 f_equal. lia.
  - intros Hn Hn2.
    replace ((10000 <=? n) && (n mod 10 =? 0)) with false.
    2:{ symmetry. apply not_true_iff_false. rewrite andb_true_iff, Z.leb_le, Z.eqb_eq.
        exact Hn. }
    replace ((8192 <? n) && (n mod 2 =? 0)) with false.
    2:{ symmetry. apply not_true_iff_false. rewrite andb_true_iff, Z.ltb_lt, Z.eqb_eq.
        exact Hn2. }
    reflexivity.
Qed.

(** *** Critical values of Student's t distribution *)

Lemma py_index_in_range {A} (l : list A) (i : Z) (d : A) :
  0 <= i < Z.of_nat (length l) -> py_index l i = Ok (nth (Z.to_nat i) l d).
Proof.
  intros Hi. unfold py_index.
  replace (i <? 0) with false by (symmetry; apply Z.ltb_ge; lia).
  replace (i <? 0) with false by (symmetry; apply Z.ltb_ge; lia).
  destruct (lookup_lt_is_Some_2 l (Z.to_nat i)) as [x Hx]; [lia|].
  rewrite Hx. rewrite (nth_lookup_Some l (Z.to_nat i) d x Hx). reflexivity.
Qed.

Lemma py_round_nearest (x : Q) : (Qabs (x - inject_Z (py_round x)) <= 1#2)%Q.
Proof.
  pose proof (Qfloor_le x) as Hle. pose proof (Qlt_floor x) as Hlt.
  rewrite inject_Z_plus in Hlt. change (inject_Z 1) with 1%Q in Hlt.
  unfold py_round. set (f := Qfloor x) in *.
  apply Qabs_Qle_condition.
  destruct (Qle_bool (1#2) (x - inject_Z f)) eqn:E1.
  - apply Qle_bool_iff in E1.
    destruct (Qeq_bool (x - inject_Z f) (1#2)) eqn:E2.
    + apply Qeq_bool_iff in E2.
      destruct (Z.even f); [|rewrite inject_Z_plus; change (inject_Z 1) with 1%Q];
        split; Lqa.lra.
    + rewrite inject_Z_plus. change (inject_Z 1) with 1%Q. split; Lqa.lra.
  - apply not_true_iff_false in E1. rewrite Qle_bool_iff in E1.
    apply Qnot_le_lt in E1. split; Lqa.lra.
Qed.

Lemma py_round_nonneg (x : Q) : (0 <= x)%Q -> 0 <= py_round x.
Proof.
  intros Hx. assert (Hf : 0 <= Qfloor x).
  { change 0 with (Qfloor 0). apply Qfloor_resp_le. exact Hx. }
  unfold py_round.
  destruct (Qle_bool _ _); [destruct (Qeq_bool _ _); [destruct (Z.even _)|]|]; lia.
Qed.

(** C7: [_tdist95conf_level] first rounds [df] to a nearest integer [n],
    then returns 1.960 if [n >= 200], 1.984 if [n >= 100], 1.990 if
    [n >= 80], 2.000 if [n >= 60], 2.009 if [n >= 50], 2.021 if [n >= 40],
    the last table entry 2.042 if [31 <= n < 40] (31 is the table's
    length), and the table entry at index [n] otherwise; for every
    (non-negative) degrees-of-freedom value. *)
Theorem tdist95conf_level_spec (df : Q) :
  (0 <= df)%Q ->
  (Qabs (df - inject_Z (py_round df)) <= (1#2))%Q /\
  tdist95conf_level df = Ok (critical_value_95_spec (py_round df)).
Proof.
  intros Hdf. split; [apply py_round_nearest|].
  pose proof (py_round_nonneg df Hdf) as Hn.
  unfold tdist95conf_level, critical_value_95_spec.
  set (n := py_round df) in *. cbv zeta.
  change (Z.of_nat (length T_DIST_95_CONF_LEVELS)) with 31.
  destruct (200 <=? n); [reflexivity|].
  destruct (100 <=? n); [reflexivity|].
  destruct (80 <=? n); [reflexivity|].
  destruct (60 <=? n); [reflexivity|].
  destruct (50 <=? n); [reflexivity|].
  destruct (40 <=? n); [reflexivity|].
  destruct (31 <=? n) eqn:E; [reflexivity|].
  apply Z.leb_gt in E. apply py_index_in_range. simpl. lia.
Qed.

(** *** Division by zero in the t-test *)

(** C10: for any two samples of length 1 (non-empty and of equal length),
    the degrees of freedom [len(a)+len(b)-2] are 0, and
    [_pooled_sample_variance], [_tscore] and [is_significant] all raise
    [ZeroDivisionError]. *)
Theorem length_one_samples_divide_by_zero (x y : R) :
  pooled_sample_variance [x] [y] = Err ZeroDivisionError /\
  tscore [x] [y] = Err ZeroDivisionError /\
  is_significant [x] [y] = Err ZeroDivisionError.
Proof.
  assert (Hp : pooled_sample_variance [x] [y] = Err ZeroDivisionError).
  { unfold pooled_sample_variance, py_div. simpl.
    destruct (Req_dec_T _ _) as [_|H]; [reflexivity|]. exfalso. apply H. reflexivity. }
  assert (Ht : tscore [x] [y] = Err ZeroDivisionError).
  { unfold tscore. simpl. rewrite Hp. reflexivity. }
  split; [exact Hp|]. split; [exact Ht|].
  unfold is_significant. simpl. rewrite Ht. reflexivity.
Qed.

(** *** The t score *)

Local Open Scope R_scope.

Lemma py_div_nonzero (x y : R) : y <> 0 -> py_div x y = Ok (x / y).
Proof. intros Hy. unfold py_div. destruct (Req_EM_T y 0); [contradiction | reflexivity]. Qed.

Lemma py_div_zero (x : R) : py_div x 0 = Err ZeroDivisionError.
Proof. unfold py_div. destruct (Req_EM_T 0 0) as [_|H]; [reflexivity | now exfalso]. Qed.

Lemma py_sqrt_nonneg (x : R) : 0 <= x -> py_sqrt x = Ok (sqrt x).
Proof. intros Hx. unfold py_sqrt. destruct (Rlt_dec x 0); [lra | reflexivity]. Qed.

Lemma mean_nonempty (l : list R) : l <> [] -> mean l = Ok (meanR l).
Proof. destruct l as [|x l]; [contradiction | reflexivity]. Qed.

Lemma fsum_squares_nonneg (l : list R) (m : R) :
  0 <= fsum (map (fun x => (x - m) ^ 2) l).
Proof.
  induction l as [|x l IH]; [simpl; lra|].
  change (fsum (map (fun x => (x - m) ^ 2) (x :: l)))
    with ((x - m) ^ 2 + fsum (map (fun x => (x - m) ^ 2) l)).
  pose proof (pow2_ge_0 (x - m)). lra.
Qed.

Lemma sum_sq_dev_nonneg (l : list R) : 0 <= sum_sq_dev l.
Proof. apply fsum_squares_nonneg. Qed.

Lemma deg_freedom_IZR (n : nat) :
  IZR (Z.of_nat n + Z.of_nat n - 2) = INR n + INR n - 2.
Proof. rewrite minus_IZR, plus_IZR, <- INR_IZR_INZ. reflexivity. Qed.

(** The pooled variance of two non-empty samples, by its divisor. *)
Lemma pooled_sample_variance_eq (a b : list R) :
  a <> [] -> b <> [] ->
  pooled_sample_variance a b =
    py_div (sum_sq_dev a + sum_sq_dev b)
           (IZR (Z.of_nat (length a) + Z.of_nat (length b) - 2)).
Proof.
  intros Ha Hb. unfold pooled_sample_variance.
  rewrite (mean_nonempty a Ha). simpl.
  rewrite (mean_nonempty b Hb). reflexivity.
Qed.

(** [critical_value_95] is defined at every degrees-of-freedom value that
    two samples can give. *)
Lemma tdist95conf_level_int (z : Z) :
  (-31 <= z)%Z -> exists cv, tdist95conf_level (inject_Z z) = Ok cv.
Proof.
  intros Hz.
  assert (Hr : py_round (inject_Z z) = z).
  { unfold py_round. rewrite Qfloor_Z.
    replace (Qle_bool (1#2) (inject_Z z - inject_Z z)) with false; [reflexivity|].
    symmetry. apply not_true_iff_false. rewrite Qle_bool_iff. intros H. Lqa.lra. }
  unfold tdist95conf_level. rewrite Hr. cbv zeta.
  change (Z.of_nat (length T_DIST_95_CONF_LEVELS)) with 31%Z.
  destruct (200 <=? z)%Z; [eauto|].
  destruct (100 <=? z)%Z; [eauto|].
  destruct (80 <=? z)%Z; [eauto|].
  destruct (60 <=? z)%Z; [eauto|].
  destruct (50 <=? z)%Z; [eauto|].
  destruct (40 <=? z)%Z; [eauto|].
  destruct (31 <=? z)%Z eqn:E; [eauto|].
  apply Z.leb_gt in E. unfold py_index.
  change (Z.of_nat (length T_DIST_95_CONF_LEVELS)) with 31%Z.
  set (j := if (z <? 0)%Z then (z + 31)%Z else z).
  assert (Hj : (0 <= j < 31)%Z).
  { unfold j. destruct (z <? 0)%Z eqn:E'; [apply Z.ltb_lt in E' | apply Z.ltb_ge in E']; lia. }
  replace (j <? 0)%Z with false by (symmetry; apply Z.ltb_ge; lia).
  destruct (lookup_lt_is_Some_2 T_DIST_95_CONF_LEVELS (Z.to_nat j)) as [x Hx].
  { simpl. lia. }
  rewrite Hx. eauto.
Qed.

(** C3, as the claim states it, fails: two non-empty samples of equal
    length 1 make [_tscore] raise [ZeroDivisionError] instead of
    returning the spec's t score. *)
Lemma tscore_formula_fails_on_singletons :
  ~ (forall a b : list R, length a = length b -> a <> [] ->
       tscore a b = Ok (t_score_spec a b)).
Proof.
  intros H.
  assert (E : tscore [1] [2] = Err ZeroDivisionError).
  { unfold tscore. simpl. rewrite pooled_sample_variance_eq by discriminate.
    simpl. rewrite py_div_zero. reflexivity. }
  rewrite H in E by (reflexivity || discriminate). discriminate.
Qed.

(** C3 (amended): [_tscore] raises [ValueError] when the samples differ in
    length; for equal lengths [n >= 2] and a positive sum of squared
    deviations it returns
    [(mean(a) - mean(b)) / sqrt(2 * pooled_variance(a,b) / n)], the pooled
    variance being [(sum_sq_dev a + sum_sq_dev b) / (2n - 2)]; for equal
    non-empty lengths with [n = 1] or a zero sum of squared deviations it
    raises [ZeroDivisionError].  [is_significant] returns
    [(|t| >= critical_value_95(2n-2), t)] when [_tscore] returns [t], and
    raises what [_tscore] raises otherwise. *)
Theorem tscore_is_significant_spec (a b : list R) :
  (length a <> length b -> exists msg, tscore a b = Err (ValueError msg)) /\
  (length a = length b -> (2 <= length a)%nat -> 0 < sum_sq_dev a + sum_sq_dev b ->
     tscore a b = Ok (t_score_spec a b)) /\
  (length a = length b -> a <> [] ->
     length a = 1%nat \/ sum_sq_dev a + sum_sq_dev b = 0 ->
     tscore a b = Err ZeroDivisionError) /\
  (forall t, tscore a b = Ok t ->
     exists cv,
       tdist95conf_level (inject_Z (Z.of_nat (length a) + Z.of_nat (length b) - 2)) = Ok cv /\
       is_significant a b = Ok ((if Rle_dec (Q2R cv) (Rabs t) then true else false), t)) /\
  (forall e, tscore a b = Err e -> is_significant a b = Err e).
Proof.
  destruct (tdist95conf_level_int (Z.of_nat (length a) + Z.of_nat (length b) - 2))
    as [cv Hcv]; [lia|].
  assert (Hsig : is_significant a b =
                 t ← tscore a b;
                 Ok ((if Rle_dec (Q2R cv) (Rabs t) then true else false), t)).
  { unfold is_significant. rewrite Hcv. reflexivity. }
  split; [|split; [|split; [|split]]].
  - intros Hne. exists "different number of samples"%string. unfold tscore.
    apply Nat.eqb_neq in Hne. rewrite Hne. reflexivity.
  - intros Hlen Hn Hpos.
    assert (Ha : a <> []) by (intros ->; simpl in Hn; lia).
    assert (Hb : b <> []) by (intros ->; simpl in Hlen; lia).
    assert (Hn' : 2 <= INR (length a)) by (apply (le_INR 2); exact Hn).
    unfold tscore. rewrite Hlen, Nat.eqb_refl. simpl negb. cbv iota.
    rewrite pooled_sample_variance_eq by assumption.
    rewrite <- Hlen, deg_freedom_IZR.
    set (S := sum_sq_dev a + sum_sq_dev b) in *.
    set (n := INR (length a)) in *.
    rewrite py_div_nonzero by lra. simpl.
    rewrite py_div_nonzero by lra. simpl.
    rewrite (mean_nonempty a Ha), (mean_nonempty b Hb). simpl.
    assert (Hd : 0 < S / (n + n - 2) / n * 2).
    { apply Rmult_lt_0_compat; [|lra].
      apply Rdiv_lt_0_compat; [apply Rdiv_lt_0_compat|]; lra. }
    rewrite py_sqrt_nonneg by lra. simpl.
    rewrite py_div_nonzero by (apply Rgt_not_eq, sqrt_lt_R0; exact Hd).
    unfold t_score_spec, pooled_variance_spec. rewrite <- Hlen. fold S n.
    do 3 f_equal. field. lra.
  - intros Hlen Ha Hz.
    assert (Hb : b <> []) by (intros ->; destruct a; [contradiction | discriminate]).
    unfold tscore. rewrite Hlen, Nat.eqb_refl. simpl negb. cbv iota.
    rewrite pooled_sample_variance_eq by assumption.
    rewrite <- Hlen, deg_freedom_IZR.
    destruct (Nat.eq_dec (length a) 1%nat) as [H1|H1].
    + rewrite H1. replace (INR 1 + INR 1 - 2) with 0 by (simpl; lra).
      rewrite py_div_zero. reflexivity.
    + assert (Hn : (2 <= length a)%nat) by (destruct a; [contradiction|simpl in *; lia]).
      assert (Hn' : 2 <= INR (length a)) by (apply (le_INR 2); exact Hn).
      destruct Hz as [Hz|Hz]; [contradiction|].
      rewrite Hz. set (n := INR (length a)) in *.
      rewrite py_div_nonzero by lra. simpl.
      rewrite py_div_nonzero by lra. simpl.
      rewrite (mean_nonempty a Ha), (mean_nonempty b Hb). simpl.
      replace (0 / (n + n - 2) / n * 2) with 0 by (unfold Rdiv; ring).
      rewrite py_sqrt_nonneg by lra. simpl.
      rewrite sqrt_0, py_div_zero. reflexivity.
  - intros t Ht. exists cv. split; [exact Hcv|]. rewrite Hsig, Ht. reflexivity.
  - intros e He. rewrite Hsig, He. reflexivity.
Qed.

Local Close Scope R_scope.

(** *** Loading documents *)

(** C8: a document whose ["version"] is neither 1 nor 2 (as Python's [==]
    compares them; a missing version is [None]) is refused with
    [ValueError], and so is a version-2 document whose ["benchmarks"] dict
    is empty; no suite is returned. *)
Theorem load_json_rejects_version_and_empty (d : list (string * pyval)) :
  (py_eq_int (match assoc_get d "version" with Some v => v | None => PNone end) 1 = false ->
   py_eq_int (match assoc_get d "version" with Some v => v | None => PNone end) 2 = false ->
   exists msg, load_json (PDict d) = Err (ValueError msg)) /\
  (py_eq_int (match assoc_get d "version" with Some v => v | None => PNone end) 2 = true ->
   assoc_get d "benchmarks" = Some (PDict []) ->
   exists msg, load_json (PDict d) = Err (ValueError msg)).
Proof.
  unfold load_json, py_get. cbn [mbind result_bind].
  set (v := match assoc_get d "version" with Some v => v | None => PNone end).
  split.
  - intros H1 H2. unfold JSON_VERSION. rewrite H2, H1. eauto.
  - intros H2 Hb. unfold JSON_VERSION. rewrite H2.
    unfold py_getitem. rewrite Hb. simpl. eauto.
Qed.

(** C5, as the claim states it, fails: the spec's version-1 example has no
    ["name"] entry in its benchmark record, and [bench_data['name']]
    raises [KeyError]; no suite is produced. *)
Lemma load_v1_example_raises_key_error :
  load_json v1_example_doc = Err (KeyError "name") /\
  ~ (exists s : suite, load_json v1_example_doc = Ok s).
Proof.
  assert (E : load_json v1_example_doc = Err (KeyError "name")) by reflexivity.
  split; [exact E|]. intros [s Hs]. rewrite E in Hs. discriminate.
Qed.

(** A version-1 record without a ["name"] entry makes [bench_data['name']]
    raise [KeyError]. *)
Lemma v1_record_without_name (d0 bd0 : list (string * pyval)) (v : pyval) :
  assoc_get d0 "version" = Some v -> py_eq_int v 1 = true ->
  assoc_get d0 "benchmark" = Some (PDict bd0) -> assoc_get bd0 "name" = None ->
  load_json (PDict d0) = Err (KeyError "name").
Proof.
  intros Hv H1 Hb Hn.
  assert (H2 : py_eq_int v JSON_VERSION = false).
  { unfold JSON_VERSION. destruct v as [|c|z|q| | |]; cbn [py_eq_int] in H1 |- *; try discriminate.
    - destruct c; [reflexivity|discriminate].
    - apply Z.eqb_eq in H1. subst. reflexivity.
    - apply Qeq_bool_iff in H1. apply not_true_iff_false. rewrite Qeq_bool_iff.
      intros H2. rewrite H1 in H2. discriminate H2. }
  unfold load_json, py_get. rewrite Hv. cbn [mbind result_bind].
  rewrite H2, H1. unfold migrate_v1, py_getitem. rewrite Hb. cbn [mbind result_bind].
  rewrite Hn. reflexivity.
Qed.

(** C5 (amended): a version-1 document whose benchmark record has a string
    ["name"] entry and a dict ["metadata"] loads as the version-2 document
    with the single entry [key: record], where [key] is the name, or
    "benchmark" when the name is empty, and the record's metadata receives
    [name = key] when it has no name.  With an empty name, the example
    loads as exactly one benchmark named "benchmark".  Every version-1
    document whose benchmark record has no ["name"] entry fails with
    [KeyError]. *)
Theorem load_v1_migrates (d bd md : list (string * pyval)) (name : string) :
  assoc_get d "version" = Some (PInt 1) ->
  assoc_get d "benchmark" = Some (PDict bd) ->
  assoc_get bd "name" = Some (PStr name) ->
  assoc_get bd "metadata" = Some (PDict md) ->
  let key := if String.eqb name "" then "benchmark"%string else name in
  let bd' := match assoc_get md "name" with
             | Some _ => bd
             | None => dict_setitem bd "metadata" (PDict (dict_setitem md "name" (PStr key)))
             end in
  load_json (PDict d) =
    load_json (PDict [("version", PInt 2); ("benchmarks", PDict [(key, PDict bd')])]) /\
  (exists (s : suite) (b : bench),
     load_json v1_named_doc = Ok s /\ map_to_list s = [("benchmark"%string, b)] /\
     b_metadata b !! "name"%string = Some (PStr "benchmark")) /\
  (forall (d0 bd0 : list (string * pyval)) (v : pyval),
     assoc_get d0 "version" = Some v -> py_eq_int v 1 = true ->
     assoc_get d0 "benchmark" = Some (PDict bd0) -> assoc_get bd0 "name" = None ->
     load_json (PDict d0) = Err (KeyError "name")).
Proof.
  intros Hv Hb Hn Hm key bd'. split.
  - unfold load_json at 1. unfold py_get. rewrite Hv. cbn [mbind result_bind].
    unfold migrate_v1, py_getitem. rewrite Hb. cbn [mbind result_bind].
    rewrite Hn. cbn [mbind result_bind]. rewrite Hm. cbn [mbind result_bind].
    unfold key, bd', truthy.
    destruct (String.eqb name "") eqn:E; simpl negb; cbv iota;
      destruct (assoc_get md "name"); reflexivity.
  - split; [|exact v1_record_without_name].
    destruct (load_json v1_named_doc) as [s|e] eqn:E; vm_compute in E; [|discriminate].
    injection E as <-. eexists _, _. split; [reflexivity|].
    split; vm_compute; reflexivity.
Qed.

(** *** Serialized records *)

(** C6, as the claim states it, fails: the record of a benchmark with
    [loops = 1] still has a ["loops"] entry. *)
Lemma as_json_keeps_loops_one :
  ~ (forall b : bench, b_loops b = 1 -> assoc_get (as_json b) "loops" = None).
Proof.
  intros H.
  specialize (H (mkBench 1 None 0 [] None None {["name"%string := PStr "bench"]}) eq_refl).
  discriminate H.
Qed.

(** C6 (amended): the record written by [_as_json] always has ["runs"]
    and ["loops"]; it omits ["warmups"] exactly when warmups is 0,
    ["inner_loops"] exactly when it is None, and ["metadata"] exactly when
    the metadata dict is empty. *)
Theorem as_json_entries (b : bench) :
  assoc_get (as_json b) "runs" = Some (PList (map PList (b_runs b))) /\
  assoc_get (as_json b) "loops" = Some (PInt (b_loops b)) /\
  assoc_get (as_json b) "warmups" =
    (if b_warmups b =? 0 then None else Some (PInt (b_warmups b))) /\
  assoc_get (as_json b) "inner_loops" = option_map PInt (b_inner_loops b) /\
  assoc_get (as_json b) "metadata" =
    (if (size (b_metadata b) =? 0)%nat then None
     else Some (PDict (map_to_list (b_metadata b)))).
Proof.
  unfold as_json.
  destruct (b_warmups b =? 0); destruct (b_inner_loops b);
    destruct (size (b_metadata b) =? 0)%nat; simpl; repeat split.
Qed.

(** *** [str.strip] *)

Lemma lstrip_idem (l : list Ascii.ascii) : lstrip (lstrip l) = lstrip l.
Proof.
  induction l as [|c l IH]; [reflexivity|]. simpl.
  destruct (is_space c) eqn:E; [exact IH|]. simpl. rewrite E. reflexivity.
Qed.

Lemma lstrip_snoc (l : list Ascii.ascii) (c : Ascii.ascii) :
  is_space c = false -> lstrip (l ++ [c]) = lstrip l ++ [c].
Proof.
  intros Hc. induction l as [|d l IH]; simpl.
  - rewrite Hc. reflexivity.
  - destruct (is_space d); [exact IH | reflexivity].
Qed.

Lemma rstrip_cons (l : list Ascii.ascii) (c : Ascii.ascii) :
  is_space c = false -> rstrip (c :: l) = c :: rstrip l.
Proof.
  intros Hc. unfold rstrip. simpl. rewrite lstrip_snoc by exact Hc.
  rewrite rev_app_distr. reflexivity.
Qed.

Lemma rstrip_idem (l : list Ascii.ascii) : rstrip (rstrip l) = rstrip l.
Proof. unfold rstrip. rewrite rev_involutive, lstrip_idem. reflexivity. Qed.

Lemma lstrip_rstrip_lstrip (l : list Ascii.ascii) :
  lstrip (rstrip (lstrip l)) = rstrip (lstrip l).
Proof.
  induction l as [|c l IH]; [reflexivity|]. simpl.
  destruct (is_space c) eqn:E; [exact IH|].
  rewrite rstrip_cons by exact E. simpl. rewrite E. reflexivity.
Qed.

Lemma py_strip_idem (s : string) : py_strip (py_strip s) = py_strip s.
Proof.
  unfold py_strip. rewrite String.list_ascii_of_string_of_list_ascii.
  rewrite lstrip_rstrip_lstrip, rstrip_idem. reflexivity.
Qed.

(** *** The setters and the constructor *)

Lemma set_loops_ok (b b' : bench) (v : pyval) :
  set_loops b v = Ok b' ->
  as_int v = Some (b_loops b') /\ 1 <= b_loops b' /\
  b_inner_loops b' = b_inner_loops b /\ b_warmups b' = b_warmups b /\
  b_runs b' = b_runs b /\ b_metadata b' = b_metadata b.
Proof.
  unfold set_loops. destruct (as_int v) as [z|]; [|discriminate].
  destruct (1 <=? z) eqn:E; [|discriminate]. intros [= <-].
  apply Z.leb_le in E. simpl. repeat split; auto.
Qed.

Lemma set_inner_loops_ok (b b' : bench) (v : pyval) :
  set_inner_loops b v = Ok b' ->
  ((v = PNone /\ b_inner_loops b' = None) \/
   (v <> PNone /\ exists i, as_int v = Some i /\ 1 <= i /\ b_inner_loops b' = Some i)) /\
  b_loops b' = b_loops b /\ b_warmups b' = b_warmups b /\
  b_runs b' = b_runs b /\ b_metadata b' = b_metadata b.
Proof.
  unfold set_inner_loops.
  destruct v; simpl;
    try (intros [= <-]; simpl; split; [left; auto | repeat split]);
    try discriminate;
    match goal with
    | |- context [if ?c then _ else _] => destruct c eqn:E; [|discriminate]
    end;
    intros [= <-]; simpl; apply Z.leb_le in E;
    (split; [right; split; [discriminate | eexists; split; [reflexivity|]; auto] | repeat split]).
Qed.

Lemma set_warmups_ok (b b' : bench) (v : pyval) :
  set_warmups b v = Ok b' ->
  as_int v = Some (b_warmups b') /\ 0 <= b_warmups b' /\
  b_loops b' = b_loops b /\ b_inner_loops b' = b_inner_loops b /\
  b_runs b' = b_runs b /\ b_metadata b' = b_metadata b.
Proof.
  unfold set_warmups. destruct (as_int v) as [z|]; [|discriminate].
  destruct (0 <=? z) eqn:E; [|discriminate]. intros [= <-].
  apply Z.leb_le in E. simpl. repeat split; auto.
Qed.

Lemma set_name_ok (b b' : bench) (v : pyval) :
  set_name b v = Ok b' ->
  exists s, v = PStr s /\ py_strip s <> ""%string /\
    b' = mkBench (b_loops b) (b_inner_loops b) (b_warmups b) (b_runs b)
                 (b_samples b) (b_median b)
                 (<["name" := PStr (py_strip s)]> (b_metadata b)).
Proof.
  unfold set_name. destruct v as [| | | |s| |]; try discriminate.
  destruct (String.eqb (py_strip s) "") eqn:E; [discriminate|].
  intros [= <-]. exists s. split; [reflexivity|]. split; [|reflexivity].
  apply String.eqb_neq. exact E.
Qed.

Lemma bench_new_ok name loops inner_loops warmups metadata (b : bench) :
  bench_new name loops inner_loops warmups metadata = Ok b ->
  as_int loops = Some (b_loops b) /\ as_int warmups = Some (b_warmups b) /\
  ((inner_loops = PNone /\ b_inner_loops b = None) \/
   (inner_loops <> PNone /\ exists i, as_int inner_loops = Some i /\ b_inner_loops b = Some i)) /\
  b_runs b = [] /\
  (exists s, name = PStr s /\
     b_metadata b = <["name" := PStr (py_strip s)]>
                      (match metadata with Some m => m | None => ∅ end)) /\
  bench_wf b.
Proof.
  unfold bench_new.
  destruct (set_loops _ loops) as [b1|] eqn:E1; [|discriminate]. cbn [mbind result_bind].
  destruct (set_inner_loops b1 inner_loops) as [b2|] eqn:E2; [|discriminate].
  cbn [mbind result_bind].
  destruct (set_warmups b2 warmups) as [b3|] eqn:E3; [|discriminate].
  cbn [mbind result_bind]. intros E4.
  apply set_loops_ok in E1 as (Hl1 & Hl2 & Ei1 & Ew1 & Er1 & Em1).
  apply set_inner_loops_ok in E2 as (Hi & El2 & Ew2 & Er2 & Em2).
  apply set_warmups_ok in E3 as (Hw1 & Hw2 & El3 & Ei3 & Er3 & Em3).
  apply set_name_ok in E4 as (s & -> & Hs & ->). simpl in *.
  rewrite El3, El2 in *. rewrite Ei3 in *.
  split; [exact Hl1|]. split; [exact Hw1|].
  split; [destruct Hi as [Hi|(Hi & i & Hi1 & _ & Hi2)]; [left; exact Hi | right; eauto]|].
  split; [reflexivity|]. split; [eauto|].
  unfold bench_wf; simpl.
  split; [exact Hl2|]. split.
  { intros i Hi'. destruct Hi as [[_ Hn]|(_ & j & _ & Hj & Hj')]; congruence. }
  split; [exact Hw2|].
  split; [intros r0 []|].
  split; [intros r0 r1 []|].
  split; [left; reflexivity|].
  - exists (py_strip s). rewrite lookup_insert_eq. split; [reflexivity|].
    split; [apply py_strip_idem | exact Hs].
Qed.

(** *** [add_run] and [get_samples] keep the invariant *)

Lemma existsb_negb_false {A} (f : A -> bool) (l : list A) :
  existsb (fun v => negb (f v)) l = false -> Forall (fun v => f v = true) l.
Proof.
  intros H. apply Forall_forall. intros v Hv.
  destruct (f v) eqn:E; [reflexivity|].
  assert (existsb (fun v => negb (f v)) l = true) as H'
    by (apply existsb_exists; exists v; rewrite E; split; [apply list_elem_of_In; exact Hv | reflexivity]).
  congruence.
Qed.

Lemma add_run_cases (b : bench) (samples : pyval) :
  (fst (add_run b samples) <> None /\ snd (add_run b samples) = b) \/
  (fst (add_run b samples) = None /\
   exists values,
     py_iter samples = Ok values /\
     Forall (fun v => is_positive_number v = true) values /\
     b_warmups b + 1 <= Z.of_nat (length values) /\
     (forall r0 rest, b_runs b = r0 :: rest -> length values = length r0) /\
     snd (add_run b samples) =
       mkBench (b_loops b) (b_inner_loops b) (b_warmups b) (b_runs b ++ [values])
               None None (b_metadata b)).
Proof.
  unfold add_run.
  destruct (negb (truthy samples)); [left; split; [discriminate | reflexivity]|].
  destruct (py_iter samples) as [values|e]; [|left; split; [discriminate | reflexivity]].
  destruct (existsb _ values) eqn:Ex; [left; split; [discriminate | reflexivity]|].
  destruct (_ <? 1) eqn:Ew; [left; split; [discriminate | reflexivity]|].
  apply Z.ltb_ge in Ew. apply existsb_negb_false in Ex.
  destruct (b_runs b) as [|r0 rest] eqn:Hr.
  - right. split; [reflexivity|]. exists values.
    split; [reflexivity|]. split; [exact Ex|]. split; [lia|].
    split; [intros ? ? [=]|].
    destruct b; simpl in *; subst; reflexivity.
  - destruct (negb (length values =? length r0)%nat) eqn:El;
      [left; split; [discriminate | reflexivity]|].
    apply negb_false_iff, Nat.eqb_eq in El.
    right. split; [reflexivity|]. exists values.
    split; [reflexivity|]. split; [exact Ex|]. split; [lia|].
    split; [intros ? ? [= <- _]; exact El|].
    destruct b; simpl in *; subst; reflexivity.
Qed.

Lemma get_loops_wf (b : bench) : bench_wf b -> get_loops b = Ok (loops_value b).
Proof.
  intros (Hl & _). unfold get_loops, loops_value.
  replace (b_loops b =? 0) with false by (symmetry; apply Z.eqb_neq; lia).
  reflexivity.
Qed.

Lemma get_samples_wf (b : bench) :
  bench_wf b ->
  fst (get_samples b) = Ok (compute_samples (b_runs b) (b_warmups b) (loops_value b)) /\
  bench_wf (snd (get_samples b)) /\
  bench_fields (snd (get_samples b)) = bench_fields b.
Proof.
  intros Hwf. pose proof (get_loops_wf b Hwf) as Hgl.
  destruct Hwf as (Hl & Hi & Hw & Hr & Hlen & Hs & Hm).
  unfold get_samples. destruct Hs as [Hs|Hs]; rewrite Hs.
  - rewrite Hgl. simpl. split; [reflexivity|]. split; [|reflexivity].
    refine (conj Hl (conj Hi (conj Hw (conj Hr (conj Hlen (conj _ Hm)))))).
    right. reflexivity.
  - simpl. split; [reflexivity|]. split; [|reflexivity].
    exact (conj Hl (conj Hi (conj Hw (conj Hr (conj Hlen (conj (or_intror Hs) Hm)))))).

Qed.

Lemma add_run_wf (b : bench) (samples : pyval) :
  bench_wf b ->
  bench_wf (snd (add_run b samples)) /\
  b_loops (snd (add_run b samples)) = b_loops b /\
  b_inner_loops (snd (add_run b samples)) = b_inner_loops b /\
  b_warmups (snd (add_run b samples)) = b_warmups b /\
  b_metadata (snd (add_run b samples)) = b_metadata b.
Proof.
  intros Hwf. destruct (add_run_cases b samples) as [[_ ->]|(_ & values & _ & Hpos & Hw' & Hfirst & ->)];
    [split; [exact Hwf | repeat split]|].
  destruct Hwf as (Hl & Hi & Hw & Hr & Hlen & Hs & Hm).
  split; [|repeat split].
  unfold bench_wf; simpl.
  repeat (split; [assumption|]).
  split; [|split; [|split; [left; reflexivity | exact Hm]]].
  - intros r Hin. apply in_app_or in Hin as [Hin|[<-|[]]]; [apply Hr; exact Hin|].
    split; assumption.
  - assert (Hv : forall r, In r (b_runs b) -> length r = length values).
    { intros r Hin. destruct (b_runs b) as [|r0 rest] eqn:Er; [destruct Hin|].
      rewrite (Hfirst r0 rest eq_refl). apply Hlen; [exact Hin | left; reflexivity]. }
    intros r r' Hin Hin'.
    apply in_app_or in Hin as [Hin|[<-|[]]]; apply in_app_or in Hin' as [Hin'|[<-|[]]].
    + apply Hlen; assumption.
    + apply Hv; exact Hin.
    + symmetry. apply Hv; exact Hin'.
    + reflexivity.
Qed.

Lemma run_calls_wf (b : bench) (calls : list bench_call) :
  bench_wf b ->
  bench_wf (run_calls b calls) /\
  b_loops (run_calls b calls) = b_loops b /\
  b_inner_loops (run_calls b calls) = b_inner_loops b /\
  b_warmups (run_calls b calls) = b_warmups b /\
  b_metadata (run_calls b calls) = b_metadata b.
Proof.
  revert b. induction calls as [|c calls IH]; intros b Hwf; [split; [exact Hwf | repeat split]|].
  change (run_calls b (c :: calls)) with (run_calls (bench_call_step b c) calls).
  assert (Hstep : bench_wf (bench_call_step b c) /\
                  b_loops (bench_call_step b c) = b_loops b /\
                  b_inner_loops (bench_call_step b c) = b_inner_loops b /\
                  b_warmups (bench_call_step b c) = b_warmups b /\
                  b_metadata (bench_call_step b c) = b_metadata b).
  { destruct c as [samples|]; unfold bench_call_step.
    - apply add_run_wf; exact Hwf.
    - destruct (get_samples_wf b Hwf) as (_ & Hwf' & Hf).
      unfold bench_fields in Hf. injection Hf as Hr Hl Hi Hw Hm.
      exact (conj Hwf' (conj Hl (conj Hi (conj Hw Hm)))). }
  destruct Hstep as (Hwf' & E1 & E2 & E3 & E4).
  destruct (IH _ Hwf') as (Hwf'' & F1 & F2 & F3 & F4).
  split; [exact Hwf'' | repeat split; congruence].
Qed.

(** C4: [add_run(samples)] on a list [samples] fails with [ValueError]
    exactly when the list is empty, some element is not a number > 0 (bool
    counts as int), [len(samples) - warmups < 1], or runs already exist and
    the list's length differs from that of the first stored run. On failure
    the benchmark is unchanged; on success the run is appended and the
    cached samples and median are cleared (set to [None]). *)
Lemma add_run_validation (b : bench) (samples : list pyval) :
  (fst (add_run b (PList samples)) <> None <->
     samples = [] \/
     (exists v, In v samples /\ is_positive_number v = false) \/
     Z.of_nat (length samples) - b_warmups b < 1 \/
     (exists r0 rest, b_runs b = r0 :: rest /\ length samples <> length r0)) /\
  (forall e, fst (add_run b (PList samples)) = Some e ->
     is_value_error e = true /\ snd (add_run b (PList samples)) = b) /\
  (fst (add_run b (PList samples)) = None ->
     snd (add_run b (PList samples)) =
       mkBench (b_loops b) (b_inner_loops b) (b_warmups b)
               (b_runs b ++ [samples]) None None (b_metadata b)).
Proof.
  unfold add_run. cbn [truthy py_iter].
  destruct samples as [|v vs].
  { simpl. split; [split; [intros _; left; reflexivity | intros _; discriminate]|].
    split; [intros e [= <-]; split; reflexivity | discriminate]. }
  change (negb (negb (length (v :: vs) =? 0)%nat)) with false. cbv iota.
  destruct (existsb _ (v :: vs)) eqn:Ex.
  { simpl fst; simpl snd.
    split; [split; [intros _ | intros _; discriminate]|].
    - right; left. apply existsb_exists in Ex as (x & Hx & Hn).
      exists x. split; [exact Hx|]. destruct (is_positive_number x); [discriminate | reflexivity].
    - split; [intros e [= <-]; split; reflexivity | discriminate]. }
  apply existsb_negb_false in Ex.
  assert (Hall : ~ exists x, In x (v :: vs) /\ is_positive_number x = false).
  { intros (x & Hx & Hn). rewrite Forall_forall in Ex.
    apply list_elem_of_In in Hx. rewrite (Ex x Hx) in Hn. discriminate. }
  destruct (_ <? 1) eqn:Ew.
  { simpl fst; simpl snd. apply Z.ltb_lt in Ew.
    split; [split; [intros _; right; right; left; exact Ew | intros _; discriminate]|].
    split; [intros e [= <-]; split; reflexivity | discriminate]. }
  apply Z.ltb_ge in Ew.
  destruct (b_runs b) as [|r0 rest] eqn:Hr.
  { simpl fst. split; [split; [intros H; congruence|]|].
    - intros [H|[H|[H|(r1 & rest1 & H & _)]]]; [discriminate | contradiction | lia | congruence].
    - split; [intros e [=]|]. intros _. destruct b; simpl in *; subst; reflexivity. }
  destruct (negb (length (v :: vs) =? length r0)%nat) eqn:El.
  { simpl fst; simpl snd. apply negb_true_iff, Nat.eqb_neq in El.
    split; [split; [intros _; right; right; right; exists r0, rest; split; [reflexivity | exact El]
                   | intros _; discriminate]|].
    split; [intros e [= <-]; split; reflexivity | discriminate]. }
  apply negb_false_iff, Nat.eqb_eq in El.
  simpl fst. split; [split; [intros H; congruence|]|].
  - intros [H|[H|[H|(r1 & rest1 & H & Hne)]]]; [discriminate | contradiction | lia |].
    injection H as <- _. contradiction.
  - split; [intros e [=]|]. intros _. destruct b; simpl in *; subst; reflexivity.
Qed.

(** *** The derived samples *)

Lemma compute_samples_drop (runs : list (list pyval)) (W lv : Z) :
  0 <= W ->
  compute_samples runs W lv =
  concat (map (fun run => map (fun x => (num_val x / inject_Z lv)%Q)
                              (drop (Z.to_nat W) run)) runs).
Proof.
  intros HW. unfold compute_samples, py_slice_from.
  replace (0 <=? W) with true by (symmetry; apply Z.leb_le; exact HW).
  induction runs as [|r runs IH]; [reflexivity|]. simpl. rewrite IH. reflexivity.
Qed.

Lemma length_concat_map_drop {A B} (f : A -> B) (k n : nat) (runs : list (list A)) :
  (forall r, In r runs -> length r = n) ->
  length (concat (map (fun run => map f (drop k run)) runs)) = (length runs * (n - k))%nat.
Proof.
  induction runs as [|r runs IH]; intros Hn; [reflexivity|].
  simpl. rewrite length_app, length_map, length_drop, IH by (intros r' Hr'; apply Hn; right; exact Hr').
  rewrite (Hn r (or_introl eq_refl)). lia.
Qed.

(** C1: for a benchmark built by the constructor with [loops=L],
    [inner_loops=I] (absent meaning 1) and [warmups=W], followed by any
    sequence of [add_run] and [get_samples] calls, [get_samples()] returns
    the concatenation over the runs, in order, of each run without its first
    [W] values and with every value divided by [L*I]; the length of that list
    is [get_nsample()] and is [nrun * (run_length - W)] for the common run
    length. *)
Lemma get_samples_spec (name : pyval) (L W : Z) (I : option Z)
    (md : option (gmap string pyval)) (b0 b : bench) (calls : list bench_call) :
  bench_new name (PInt L) (match I with Some i => PInt i | None => PNone end)
            (PInt W) md = Ok b0 ->
  b = run_calls b0 calls ->
  fst (get_samples b) = Ok (spec_samples L (default 1 I) W (b_runs b)) /\
  Z.of_nat (length (spec_samples L (default 1 I) W (b_runs b))) = get_nsample b /\
  (forall run, In run (b_runs b) ->
     Z.of_nat (length (spec_samples L (default 1 I) W (b_runs b))) =
     get_nrun b * (Z.of_nat (length run) - W)).
Proof.
  intros Hnew ->.
  destruct (bench_new_ok _ _ _ _ _ _ Hnew) as (HL & HW & Hinner & _ & _ & Hwf0).
  injection HL as HL. injection HW as HW.
  assert (Hlv : loops_value b0 = L * default 1 I).
  { unfold loops_value. rewrite <- HL.
    destruct I as [i|]; destruct Hinner as [(Hp & Hi)|(Hp & j & Hj & Hi)];
      try discriminate; rewrite Hi; simpl.
    - injection Hj as <-. reflexivity.
    - lia. }
  destruct (run_calls_wf b0 calls Hwf0) as (Hwf & EL & EI & EW & _).
  set (b := run_calls b0 calls) in *.
  assert (Hlv' : loops_value b = L * default 1 I) by (unfold loops_value; rewrite EL, EI; exact Hlv).
  destruct (get_samples_wf b Hwf) as (Hs & _ & _).
  pose proof Hwf as (_ & _ & Hw0 & Hr & Hlen & _ & _).
  rewrite EW, <- HW in Hw0.
  assert (Hspec : compute_samples (b_runs b) (b_warmups b) (loops_value b) =
                  spec_samples L (default 1 I) W (b_runs b)).
  { rewrite EW, <- HW, Hlv'. apply compute_samples_drop. exact Hw0. }
  rewrite Hspec in Hs.
  assert (Hlength : forall run, In run (b_runs b) ->
            Z.of_nat (length (spec_samples L (default 1 I) W (b_runs b))) =
            get_nrun b * (Z.of_nat (length run) - W)).
  { intros run Hin. unfold spec_samples, get_nrun.
    rewrite (length_concat_map_drop _ _ (length run)) by (intros r Hr'; apply Hlen; assumption).
    destruct (Hr run Hin) as (_ & Hge). rewrite EW, <- HW in Hge.
    rewrite Nat2Z.inj_mul, Nat2Z.inj_sub by lia. rewrite Z2Nat.id by exact Hw0. reflexivity. }
  split; [exact Hs|]. split; [|exact Hlength].
  unfold get_nsample. destruct (b_runs b) as [|r0 rest] eqn:Er.
  - reflexivity.
  - rewrite (Hlength r0) by (left; reflexivity).
    unfold get_nrun. rewrite Er, EW, <- HW. reflexivity.
Qed.

(** *** Dicts written and read back *)

Lemma assoc_get_Some (l : list (string * pyval)) (k : string) (v : pyval) :
  assoc_get l k = Some v -> (k, v) ∈ l.
Proof.
  induction l as [|[k' v'] l IH]; simpl; [discriminate|].
  destruct (String.eqb k k') eqn:E.
  - apply String.eqb_eq in E as ->. intros [= ->]. left.
  - intros H. right. apply IH, H.
Qed.

Lemma assoc_get_None (l : list (string * pyval)) (k : string) :
  assoc_get l k = None -> k ∉ l.*1.
Proof.
  induction l as [|[k' v'] l IH]; simpl; [intros _ H; inversion H|].
  destruct (String.eqb k k') eqn:E; [discriminate|].
  apply String.eqb_neq in E. intros H Hin. apply elem_of_cons in Hin as [->|Hin].
  - apply E; reflexivity.
  - apply (IH H Hin).
Qed.

Lemma assoc_get_map_to_list (m : gmap string pyval) (k : string) :
  assoc_get (map_to_list m) k = m !! k.
Proof.
  destruct (assoc_get (map_to_list m) k) as [v|] eqn:E.
  - apply assoc_get_Some, elem_of_map_to_list in E. symmetry. exact E.
  - apply assoc_get_None in E. destruct (m !! k) as [v|] eqn:Em; [|reflexivity].
    exfalso. apply E. apply list_elem_of_fmap. exists (k, v).
    split; [reflexivity | apply elem_of_map_to_list; exact Em].
Qed.

Lemma fold_insert_union (l : list (string * pyval)) (acc : gmap string pyval) :
  NoDup l.*1 ->
  fold_left (fun m kv => <[kv.1 := kv.2]> m) l acc = list_to_map l ∪ acc.
Proof.
  revert acc. induction l as [|[k v] l IH]; intros acc Hnd; simpl.
  - symmetry. apply (left_id_L ∅ (∪)).
  - apply NoDup_cons in Hnd as [Hk Hnd]. rewrite IH by exact Hnd.
    rewrite <- insert_union_r by (apply not_elem_of_list_to_map_1; exact Hk).
    rewrite insert_union_l. reflexivity.
Qed.

Lemma dict_of_items_map_to_list (m : gmap string pyval) :
  dict_of_items (map_to_list m) = m.
Proof.
  unfold dict_of_items. rewrite fold_insert_union by apply NoDup_fst_map_to_list.
  rewrite (right_id_L ∅ (∪)). apply list_to_map_to_list.
Qed.

(** *** The constructor and [add_run] on valid arguments *)

Lemma bench_new_succeeds (s : string) (L W : Z) (I : option Z) (md : gmap string pyval) :
  1 <= L -> (forall i, I = Some i -> 1 <= i) -> 0 <= W -> py_strip s <> ""%string ->
  bench_new (PStr s) (PInt L) (match I with Some i => PInt i | None => PNone end)
            (PInt W) (Some md) =
  Ok (mkBench L I W [] None None (<["name" := PStr (py_strip s)]> md)).
Proof.
  intros HL HI HW Hs. unfold bench_new, set_loops. cbn [as_int].
  replace (1 <=? L) with true by (symmetry; apply Z.leb_le; exact HL).
  cbn [mbind result_bind].
  assert (Hinner : forall b0, set_inner_loops b0 (match I with Some i => PInt i | None => PNone end) =
            Ok (mkBench (b_loops b0) I (b_warmups b0) (b_runs b0) None None (b_metadata b0))).
  { intros b0. unfold set_inner_loops. destruct I as [i|]; [|reflexivity].
    cbn [as_int]. replace (1 <=? i) with true by (symmetry; apply Z.leb_le; apply HI; reflexivity).
    reflexivity. }
  rewrite Hinner. cbn [mbind result_bind]. unfold set_warmups. cbn [as_int].
  replace (0 <=? W) with true by (symmetry; apply Z.leb_le; exact HW).
  cbn [mbind result_bind]. unfold set_name.
  replace (String.eqb (py_strip s) "") with false by (symmetry; apply String.eqb_neq; exact Hs).
  reflexivity.
Qed.

Lemma forall_existsb_negb {A} (f : A -> bool) (l : list A) :
  Forall (fun v => f v = true) l -> existsb (fun v => negb (f v)) l = false.
Proof.
  induction 1 as [|x l Hx _ IH]; [reflexivity|]. simpl. rewrite Hx, IH. reflexivity.
Qed.

Lemma add_run_ok (b : bench) (values : list pyval) :
  0 <= b_warmups b ->
  Forall (fun v => is_positive_number v = true) values ->
  b_warmups b + 1 <= Z.of_nat (length values) ->
  (forall r0 rest, b_runs b = r0 :: rest -> length values = length r0) ->
  add_run b (PList values) =
  (None, mkBench (b_loops b) (b_inner_loops b) (b_warmups b) (b_runs b ++ [values])
                 None None (b_metadata b)).
Proof.
  intros HW Hpos Hw Hfirst.
  destruct values as [|v vs]; [simpl in Hw; destruct b; simpl in *; lia|].
  unfold add_run. cbn [truthy py_iter].
  change (negb (negb (length (v :: vs) =? 0)%nat)) with false. cbv iota.
  rewrite forall_existsb_negb by exact Hpos.
  replace (_ <? 1) with false by (symmetry; apply Z.ltb_ge; lia).
  destruct (b_runs b) as [|r0 rest] eqn:Hr.
  - destruct b; simpl in *; subst; reflexivity.
  - rewrite (Hfirst r0 rest eq_refl), Nat.eqb_refl. simpl negb. cbv iota.
    destruct b; simpl in *; subst; reflexivity.
Qed.

Lemma add_runs_ok (L W : Z) (I : option Z) (md : gmap string pyval)
    (prefix runs : list (list pyval)) :
  0 <= W ->
  (forall r, In r (prefix ++ runs) ->
     Forall (fun v => is_positive_number v = true) r /\ W + 1 <= Z.of_nat (length r)) ->
  (forall r r', In r (prefix ++ runs) -> In r' (prefix ++ runs) -> length r = length r') ->
  add_runs (mkBench L I W prefix None None md) (map PList runs) =
  Ok (mkBench L I W (prefix ++ runs) None None md).
Proof.
  intros HW. revert prefix. induction runs as [|r runs IH]; intros prefix Hr Hlen.
  - simpl. rewrite app_nil_r. reflexivity.
  - simpl map. cbn [add_runs].
    assert (Hin : In r (prefix ++ r :: runs)) by (apply in_or_app; right; left; reflexivity).
    destruct (Hr r Hin) as (Hpos & Hge).
    rewrite add_run_ok; [| exact HW | exact Hpos | exact Hge |].
    + simpl. rewrite IH; [rewrite <- app_assoc; reflexivity | |];
        rewrite <- app_assoc; simpl; assumption.
    + simpl. intros r0 rest Hp. apply Hlen; [exact Hin|].
      rewrite Hp. left. reflexivity.
Qed.

(** *** One benchmark written and read back *)

Lemma as_json_get (b : bench) :
  bench_wf b ->
  py_get (PDict (as_json b)) "warmups" (PInt 0) = Ok (PInt (b_warmups b)) /\
  py_get (PDict (as_json b)) "loops" (PInt 1) = Ok (PInt (b_loops b)) /\
  py_get (PDict (as_json b)) "inner_loops" PNone =
    Ok (match b_inner_loops b with Some i => PInt i | None => PNone end) /\
  py_get (PDict (as_json b)) "metadata" PNone = Ok (PDict (map_to_list (b_metadata b))) /\
  py_getitem (PDict (as_json b)) "runs" = Ok (PList (map PList (b_runs b))).
Proof.
  intros (_ & _ & _ & _ & _ & _ & s & Hname & _).
  assert (Hsize : (size (b_metadata b) =? 0)%nat = false).
  { apply Nat.eqb_neq. intros H. apply map_size_empty_iff in H.
    rewrite H, lookup_empty in Hname. discriminate. }
  unfold py_get, py_getitem, as_json. rewrite Hsize.
  destruct (b_warmups b =? 0) eqn:Ew; [apply Z.eqb_eq in Ew; rewrite Ew|];
    destruct (b_inner_loops b); simpl; repeat split.
Qed.

Lemma json_load_as_json (b : bench) :
  bench_wf b ->
  exists b', json_load (PDict (as_json b)) = Ok b' /\ bench_fields b' = bench_fields b.
Proof.
  intros Hwf. destruct (as_json_get b Hwf) as (Ew & El & Ei & Em & Er).
  pose proof Hwf as (Hl & Hi & Hw & Hr & Hlen & _ & s & Hname & Hstrip & Hne).
  assert (En : py_get (PDict (map_to_list (b_metadata b))) "name" PNone = Ok (PStr s)).
  { unfold py_get. rewrite assoc_get_map_to_list, Hname. reflexivity. }
  unfold json_load. rewrite Ew. cbn [mbind result_bind]. rewrite El. cbn [mbind result_bind].
  rewrite Ei. cbn [mbind result_bind]. rewrite Em. cbn [mbind result_bind].
  rewrite En. cbn [mbind result_bind]. rewrite dict_of_items_map_to_list.
  rewrite (bench_new_succeeds s (b_loops b) (b_warmups b) (b_inner_loops b) (b_metadata b))
    by (rewrite ?Hstrip; assumption).
  cbn [mbind result_bind]. rewrite Er. cbn [mbind result_bind py_iter].
  rewrite Hstrip, (insert_id _ _ _ Hname).
  rewrite (add_runs_ok _ _ _ _ [] (b_runs b)) by (simpl; assumption).
  eexists. split; [reflexivity|]. reflexivity.
Qed.

Lemma built_wf (b : bench) : built b -> bench_wf b.
Proof.
  intros (name & loops & inner_loops & warmups & metadata & b0 & calls & Hnew & ->).
  destruct (bench_new_ok _ _ _ _ _ _ Hnew) as (_ & _ & _ & _ & _ & Hwf0).
  apply (run_calls_wf b0 calls Hwf0).
Qed.

(** *** A suite written and read back *)

Lemma load_benchmarks_ok (items : list (string * bench)) (acc : suite) :
  NoDup items.*1 ->
  (forall k, k ∈ items.*1 -> acc !! k = None) ->
  Forall (fun nb => bench_wf nb.2) items ->
  exists s', load_benchmarks acc (map (fun nb => (nb.1, PDict (as_json nb.2))) items) = Ok s' /\
    forall j, bench_fields <$> s' !! j =
      match acc !! j with
      | Some b => Some (bench_fields b)
      | None => bench_fields <$> (list_to_map items : suite) !! j
      end.
Proof.
  revert acc. induction items as [|[k b] items IH]; intros acc Hnd Hfree Hwf.
  - exists acc. split; [reflexivity|]. intros j. simpl. rewrite lookup_empty.
    destruct (acc !! j); reflexivity.
  - simpl in Hnd. apply NoDup_cons in Hnd as [Hk Hnd].
    inversion Hwf as [|? ? Hb Hwf']; subst. simpl in Hb.
    destruct (json_load_as_json b Hb) as (b' & Hj & Hf).
    assert (Hacc : acc !! k = None) by (apply Hfree; simpl; apply list_elem_of_here).
    destruct (IH (<[k := b']> acc) Hnd) as (s' & Hl & Hs').
    { intros k' Hk'. rewrite lookup_insert_ne.
      - apply Hfree. simpl. apply list_elem_of_further. exact Hk'.
      - intros ->. contradiction. }
    { exact Hwf'. }
    exists s'. split.
    + simpl map. cbn [load_benchmarks]. rewrite Hj. cbn [mbind result_bind].
      unfold suite_add. rewrite Hacc. cbn [mbind result_bind]. exact Hl.
    + intros j. rewrite Hs'. simpl list_to_map. destruct (decide (j = k)) as [->|Hne].
      * rewrite !lookup_insert_eq, Hacc. simpl. rewrite Hf. reflexivity.
      * rewrite !lookup_insert_ne by congruence. reflexivity.
Qed.

(** C2 (as stated, refuted): the round trip fails on the empty suite, which
    [dump] writes but [_load_json] refuses with [ValueError] ("the file
    doesn't contain any benchmark"), so no reloaded suite exists. *)
Lemma empty_suite_roundtrip_fails :
  load_json (suite_dump ∅) = Err (ValueError "the file doesn't contain any benchmark") /\
  ~ (forall s : suite, map_Forall (fun _ b => built b) s ->
       exists s', load_json (suite_dump s) = Ok s' /\
                  bench_fields <$> s' = bench_fields <$> s).
Proof.
  split; [vm_compute; reflexivity|].
  intros H. destruct (H ∅ (map_Forall_empty _)) as (s' & Hl & _).
  vm_compute in Hl. discriminate.
Qed.

(** C2 (amended): for every non-empty suite whose benchmarks were built by
    the constructor followed by [add_run] and [get_samples] calls, reloading
    the dumped document gives a suite with the same names whose benchmarks
    have the same runs, loops, inner_loops, warmups and metadata. *)
Lemma suite_dump_load_roundtrip (s : suite) :
  map_Forall (fun _ b => built b) s -> s <> ∅ ->
  exists s', load_json (suite_dump s) = Ok s' /\
             bench_fields <$> s' = bench_fields <$> s.
Proof.
  intros Hb Hne.
  assert (Hwf : Forall (fun nb => bench_wf nb.2) (map_to_list s)).
  { apply Forall_forall. intros [k b] Hin. apply elem_of_map_to_list in Hin.
    apply built_wf. exact (Hb k b Hin). }
  destruct (load_benchmarks_ok (map_to_list s) ∅ (NoDup_fst_map_to_list s)
              (fun k _ => lookup_empty k) Hwf) as (s' & Hl & Hs').
  assert (Heq : bench_fields <$> s' = bench_fields <$> s).
  { apply map_eq. intros j. rewrite !lookup_fmap, Hs', lookup_empty, list_to_map_to_list.
    reflexivity. }
  assert (Hsize : (size s' =? 0)%nat = false).
  { apply Nat.eqb_neq, map_size_non_empty_iff. intros ->.
    destruct (map_choose s Hne) as (j & b & Hj).
    assert (Hj' : (bench_fields <$> s) !! j = Some (bench_fields b)) by (rewrite lookup_fmap, Hj; reflexivity).
    rewrite <- Heq, lookup_fmap, lookup_empty in Hj'. discriminate. }
  exists s'. split; [|exact Heq].
  unfold load_json, suite_dump. simpl. rewrite Hl. cbn [mbind result_bind].
  rewrite Hsize. reflexivity.
Qed.

(** ** Instances of the hypotheses *)

(** [tdist95conf_level_spec] at [df = 2.5], which rounds to 2. *)
Lemma tdist95conf_level_spec_witness :
  (0 <= 5#2)%Q /\
  (Qabs ((5#2) - inject_Z (py_round (5#2))) <= (1#2))%Q /\
  tdist95conf_level (5#2) = Ok (critical_value_95_spec (py_round (5#2))).
Proof.
  assert (H : (0 <= 5#2)%Q) by (unfold Qle; simpl; lia).
  split; [exact H | exact (tdist95conf_level_spec (5#2) H)].
Defined.

(** [load_v1_migrates] on the record of [v1_named_doc]. *)
Lemma load_v1_migrates_witness :
  assoc_get [("version", PInt 1);
             ("benchmark", PDict [("name", PStr "");
                                  ("runs", PList [PList [PInt 1; PInt 2; PInt 3]]);
                                  ("metadata", PDict [])])] "version" = Some (PInt 1) /\
  assoc_get [("version", PInt 1);
             ("benchmark", PDict [("name", PStr "");
                                  ("runs", PList [PList [PInt 1; PInt 2; PInt 3]]);
                                  ("metadata", PDict [])])] "benchmark" =
    Some (PDict [("name", PStr "");
                 ("runs", PList [PList [PInt 1; PInt 2; PInt 3]]);
                 ("metadata", PDict [])]) /\
  assoc_get [("name", PStr "");
             ("runs", PList [PList [PInt 1; PInt 2; PInt 3]]);
             ("metadata", PDict [])] "name" = Some (PStr "") /\
  assoc_get [("name", PStr "");
             ("runs", PList [PList [PInt 1; PInt 2; PInt 3]]);
             ("metadata", PDict [])] "metadata" = Some (PDict []) /\
  load_json (PDict [("version", PInt 1);
                    ("benchmark", PDict [("name", PStr "");
                                         ("runs", PList [PList [PInt 1; PInt 2; PInt 3]]);
                                         ("metadata", PDict [])])]) =
  load_json (PDict [("version", PInt 2);
                    ("benchmarks",
                     PDict [("benchmark",
                             PDict [("name", PStr "");
                                    ("runs", PList [PList [PInt 1; PInt 2; PInt 3]]);
                                    ("metadata", PDict [("name", PStr "benchmark")])])])]).
Proof.
  split; [reflexivity|]. split; [reflexivity|]. split; [reflexivity|]. split; [reflexivity|].
  exact (proj1 (load_v1_migrates
                  [("version", PInt 1);
                   ("benchmark", PDict [("name", PStr "");
                                        ("runs", PList [PList [PInt 1; PInt 2; PInt 3]]);
                                        ("metadata", PDict [])])]
                  [("name", PStr "");
                   ("runs", PList [PList [PInt 1; PInt 2; PInt 3]]);
                   ("metadata", PDict [])]
                  [] "" eq_refl eq_refl eq_refl eq_refl)).
Defined.

(** [get_samples_spec] on [Benchmark("bench", loops=2, inner_loops=5,
    warmups=1)] with two accepted runs, a [get_samples()] call in between
    and a refused run. *)
Lemma get_samples_spec_witness :
  bench_new (PStr "bench") (PInt 2) (PInt 5) (PInt 1) None =
    Ok (mkBench 2 (Some 5) 1 [] None None (<["name" := PStr "bench"]> ∅)) /\
  fst (get_samples (run_calls (mkBench 2 (Some 5) 1 [] None None (<["name" := PStr "bench"]> ∅))
                      [CallAddRun (PList [PInt 3; PInt 4; PInt 5]); CallGetSamples;
                       CallAddRun (PList [PInt 6; PInt 7; PInt 8]);
                       CallAddRun (PList [PInt 1])])) =
  Ok (spec_samples 2 5 1
        (b_runs (run_calls (mkBench 2 (Some 5) 1 [] None None (<["name" := PStr "bench"]> ∅))
                   [CallAddRun (PList [PInt 3; PInt 4; PInt 5]); CallGetSamples;
                    CallAddRun (PList [PInt 6; PInt 7; PInt 8]);
                    CallAddRun (PList [PInt 1])]))).
Proof.
  assert (H : bench_new (PStr "bench") (PInt 2) (PInt 5) (PInt 1) None =
              Ok (mkBench 2 (Some 5) 1 [] None None (<["name" := PStr "bench"]> ∅)))
    by (vm_compute; reflexivity).
  split; [exact H|].
  exact (proj1 (get_samples_spec (PStr "bench") 2 1 (Some 5) None _ _
                  [CallAddRun (PList [PInt 3; PInt 4; PInt 5]); CallGetSamples;
                   CallAddRun (PList [PInt 6; PInt 7; PInt 8]);
                   CallAddRun (PList [PInt 1])] H eq_refl)).
Defined.

(** [suite_dump_load_roundtrip] on a one-benchmark suite. *)
Lemma suite_dump_load_roundtrip_witness :
  map_Forall (fun _ b => built b)
    ({["bench" := run_calls (mkBench 2 (Some 5) 1 [] None None (<["name" := PStr "bench"]> ∅))
                    [CallAddRun (PList [PInt 3; PInt 4; PInt 5])]]} : suite) /\
  ({["bench" := run_calls (mkBench 2 (Some 5) 1 [] None None (<["name" := PStr "bench"]> ∅))
                  [CallAddRun (PList [PInt 3; PInt 4; PInt 5])]]} : suite) <> ∅ /\
  exists s', load_json (suite_dump
               {["bench" := run_calls (mkBench 2 (Some 5) 1 [] None None
                                                (<["name" := PStr "bench"]> ∅))
                               [CallAddRun (PList [PInt 3; PInt 4; PInt 5])]]}) = Ok s' /\
             bench_fields <$> s' =
             bench_fields <$> ({["bench" := run_calls (mkBench 2 (Some 5) 1 [] None None
                                                        (<["name" := PStr "bench"]> ∅))
                                     [CallAddRun (PList [PInt 3; PInt 4; PInt 5])]]} : suite).
Proof.
  assert (H1 : map_Forall (fun _ b => built b)
    ({["bench" := run_calls (mkBench 2 (Some 5) 1 [] None None (<["name" := PStr "bench"]> ∅))
                    [CallAddRun (PList [PInt 3; PInt 4; PInt 5])]]} : suite)).
  { apply map_Forall_singleton.
    exists (PStr "bench"), (PInt 2), (PInt 5), (PInt 1), None,
      (mkBench 2 (Some 5) 1 [] None None (<["name" := PStr "bench"]> ∅)),
      [CallAddRun (PList [PInt 3; PInt 4; PInt 5])].
    split; [vm_compute; reflexivity | reflexivity]. }
  assert (H2 : ({["bench" := run_calls (mkBench 2 (Some 5) 1 [] None None
                                                (<["name" := PStr "bench"]> ∅))
                               [CallAddRun (PList [PInt 3; PInt 4; PInt 5])]]} : suite) <> ∅)
    by apply map_non_empty_singleton.
  split; [exact H1|]. split; [exact H2|].
  exact (suite_dump_load_roundtrip _ H1 H2).
Defined.

(* ================================================================== *)
(** * More of [perf/__init__.py]: the cpu and run lists *)

Lemma list_ascii_append (a b : string) :
  String.list_ascii_of_string (String.append a b) =
  String.list_ascii_of_string a ++ String.list_ascii_of_string b.
Proof. induction a as [|c a IH]; simpl; [reflexivity | rewrite IH; reflexivity]. Qed.

Lemma lstrip_no_space (l : list Ascii.ascii) :
  Forall (fun c => is_space c = false) l -> lstrip l = l.
Proof. intros H. destruct H as [|c l Hc _]; simpl; [reflexivity | rewrite Hc; reflexivity]. Qed.

Lemma py_strip_no_space (s : string) :
  Forall (fun c => is_space c = false) (String.list_ascii_of_string s) -> py_strip s = s.
Proof.
  intros H. unfold py_strip, rstrip.
  rewrite (lstrip_no_space _ H), lstrip_no_space.
  - rewrite rev_involutive. apply String.string_of_list_ascii_of_string.
  - apply Forall_rev. exact H.
Qed.

Lemma cpu_char_not_space (c : Ascii.ascii) : cpu_char c = true -> is_space c = false.
Proof.
  destruct c as [[] [] [] [] [] [] [] []]; cbv; intros H; first [reflexivity | discriminate H].
Qed.

Lemma digit_not_sign (c : Ascii.ascii) (d : Ascii.ascii) :
  is_digit c = true -> is_digit d = false -> Ascii.eqb c d = false.
Proof. intros H1 H2. destruct (Ascii.eqb_spec c d) as [->|]; [congruence | reflexivity]. Qed.

Lemma parse_digits_from_app (ds rest : list Ascii.ascii) (k : Z) :
  Forall (fun c => is_digit c = true) ds ->
  parse_digits_from (ds ++ rest) k = parse_digits_from rest (digits_value ds k).
Proof.
  revert k. induction ds as [|c ds IH]; intros k H; [reflexivity|].
  inversion H as [|? ? Hc Hds]; subst. simpl. rewrite Hc. apply IH, Hds.
Qed.

Lemma digit_of_mod (n : Z) :
  0 <= n ->
  let c := Ascii.ascii_of_nat (48 + Z.to_nat (n mod 10)) in
  is_digit c = true /\ digit_val c = n mod 10.
Proof.
  intros Hn c. pose proof (Z.mod_pos_bound n 10 ltac:(lia)) as Hb.
  assert (Hc : Ascii.nat_of_ascii c = (48 + Z.to_nat (n mod 10))%nat).
  { apply Ascii.nat_ascii_embedding. lia. }
  unfold is_digit, digit_val. rewrite Hc. split.
  - apply andb_true_intro. split; apply Nat.leb_le; lia.
  - lia.
Qed.

Lemma dec_digits_spec (fuel : nat) (n : Z) (acc : string) :
  0 <= n < 10 ^ Z.of_nat (S fuel) ->
  exists ds, String.list_ascii_of_string (dec_digits (S fuel) n acc) =
             ds ++ String.list_ascii_of_string acc /\
             ds <> [] /\ Forall (fun c => is_digit c = true) ds /\ digits_value ds 0 = n.
Proof.
  revert n acc. induction fuel as [|fuel IH]; intros n acc Hn;
    destruct (digit_of_mod n ltac:(lia)) as [Hd Hv];
    set (c := Ascii.ascii_of_nat (48 + Z.to_nat (n mod 10))) in *.
  - simpl dec_digits. fold c.
    replace (n <? 10) with true by (symmetry; apply Z.ltb_lt; simpl in Hn; lia).
    exists [c]. simpl. split; [reflexivity|]. split; [discriminate|].
    split; [constructor; auto|]. unfold digits_value. simpl. rewrite Hv.
    simpl in Hn. rewrite Z.mod_small by lia. reflexivity.
  - change (dec_digits (S (S fuel)) n acc) with
      (let acc := String.String c acc in
       if n <? 10 then acc else dec_digits (S fuel) (n / 10) acc).
    cbv zeta. destruct (Z.ltb_spec n 10).
    + exists [c]. simpl. split; [reflexivity|]. split; [discriminate|].
      split; [constructor; auto|]. unfold digits_value. simpl. rewrite Hv.
      rewrite Z.mod_small by lia. reflexivity.
    + destruct (IH (n / 10) (String.String c acc)) as (ds & E & Hne & Hds & Hval).
      { split; [apply Z.div_pos; lia|].
        apply Z.div_lt_upper_bound; [lia|].
        rewrite Nat2Z.inj_succ, Z.pow_succ_r in Hn by lia. lia. }
      exists (ds ++ [c]). rewrite E. simpl. split; [rewrite <- app_assoc; reflexivity|].
      split; [destruct ds; discriminate|].
      split; [apply Forall_app; split; [exact Hds | constructor; auto]|].
      unfold digits_value in *. rewrite fold_left_app. simpl. rewrite Hval, Hv.
      pose proof (Z.div_mod n 10 ltac:(lia)). lia.
Qed.

Lemma py_str_int_digits (n : Z) :
  0 <= n ->
  exists ds, String.list_ascii_of_string (py_str_int n) = ds /\
             ds <> [] /\ Forall (fun c => is_digit c = true) ds /\ digits_value ds 0 = n.
Proof.
  intros Hn. unfold py_str_int.
  replace (n <? 0) with false by (symmetry; apply Z.ltb_ge; lia).
  destruct (dec_digits_spec (Z.to_nat (Z.log2 (Z.abs n))) n "") as (ds & E & H).
  - split; [exact Hn|]. rewrite Z.abs_eq by lia.
    destruct (Z.eq_dec n 0) as [->|Hn0]; [simpl; lia|].
    rewrite Nat2Z.inj_succ, Z2Nat.id by apply Z.log2_nonneg.
    pose proof (Z.log2_spec n ltac:(lia)) as [_ H2].
    rewrite <- Z.add_1_r in *.
    assert (2 ^ (Z.log2 n + 1) <= 10 ^ (Z.log2 n + 1))
      by (apply Z.pow_le_mono_l; lia). lia.
  - exists ds. rewrite E, app_nil_r. split; [reflexivity | exact H].
Qed.

Lemma digits_not_space (ds : list Ascii.ascii) :
  Forall (fun c => is_digit c = true) ds -> Forall (fun c => is_space c = false) ds.
Proof.
  intros H. eapply Forall_impl; [exact H|]. intros c Hc. apply cpu_char_not_space.
  unfold cpu_char. rewrite Hc. reflexivity.
Qed.

Lemma parse_digits_value (ds : list Ascii.ascii) :
  ds <> [] -> Forall (fun c => is_digit c = true) ds -> parse_digits ds = Some (digits_value ds 0).
Proof.
  intros Hne H. destruct ds as [|c ds]; [contradiction|].
  inversion H as [|? ? Hc Hds]; subst. simpl. rewrite Hc.
  change (digits_value (c :: ds) 0) with (digits_value ds (0 * 10 + digit_val c)).
  replace (0 * 10 + digit_val c) with (digit_val c) by lia.
  rewrite <- (app_nil_r ds) at 1. rewrite parse_digits_from_app by exact Hds. reflexivity.
Qed.

Lemma py_int_str (n : Z) : 0 <= n -> py_int (py_str_int n) = Ok n.
Proof.
  intros Hn. destruct (py_str_int_digits n Hn) as (ds & E & Hne & Hds & Hval).
  unfold py_int. rewrite py_strip_no_space by (rewrite E; apply digits_not_space, Hds).
  rewrite E. destruct ds as [|c ds']; [contradiction|].
  pose proof (Forall_inv Hds) as Hc. simpl in Hc.
  rewrite (digit_not_sign c "-"%char Hc eq_refl), (digit_not_sign c "+"%char Hc eq_refl).
  rewrite parse_digits_value by assumption. rewrite Hval. reflexivity.
Qed.

Lemma py_contains_digits (ds : list Ascii.ascii) (d : Ascii.ascii) :
  Forall (fun c => is_digit c = true) ds -> is_digit d = false ->
  existsb (fun c' => Ascii.eqb c' d) ds = false.
Proof.
  induction 1 as [|c ds Hc _ IH]; intros Hd; [reflexivity|].
  simpl. rewrite (digit_not_sign c d Hc Hd). apply IH, Hd.
Qed.

Lemma split_on_no_sep (sep : Ascii.ascii) (l : list Ascii.ascii) :
  existsb (fun c => Ascii.eqb c sep) l = false -> split_on sep l = [l].
Proof.
  induction l as [|c l IH]; intros H; [reflexivity|].
  simpl in H. apply orb_false_iff in H as [Hc H]. simpl. rewrite Hc, IH by exact H. reflexivity.
Qed.

Lemma split_on_app (sep : Ascii.ascii) (l1 l2 : list Ascii.ascii) :
  existsb (fun c => Ascii.eqb c sep) l1 = false ->
  split_on sep (l1 ++ sep :: l2) = l1 :: split_on sep l2.
Proof.
  induction l1 as [|c l1 IH]; intros H.
  - simpl. rewrite Ascii.eqb_refl. reflexivity.
  - simpl in H. apply orb_false_iff in H as [Hc H]. simpl. rewrite Hc, IH by exact H. reflexivity.
Qed.

Lemma split_once_app (sep : Ascii.ascii) (l1 l2 : list Ascii.ascii) :
  existsb (fun c => Ascii.eqb c sep) l1 = false ->
  split_once sep (l1 ++ sep :: l2) = [l1; l2].
Proof.
  induction l1 as [|c l1 IH]; intros H.
  - simpl. rewrite Ascii.eqb_refl. reflexivity.
  - simpl in H. apply orb_false_iff in H as [Hc H]. simpl. rewrite Hc, IH by exact H. reflexivity.
Qed.

Lemma py_range_single (x : Z) : py_range x (x + 1) = [x].
Proof.
  unfold py_range. replace (x + 1 - x) with 1 by lia. simpl. f_equal. lia.
Qed.

Lemma py_range_snoc (f l : Z) :
  f <= l + 1 -> py_range f (l + 1 + 1) = py_range f (l + 1) ++ [l + 1].
Proof.
  intros H. unfold py_range.
  replace (Z.to_nat (l + 1 + 1 - f)) with (S (Z.to_nat (l + 1 - f))) by lia.
  rewrite seq_S, map_app. simpl. do 2 f_equal. lia.
Qed.

Lemma py_index_pair_0 {A} (a b : A) : py_index [a; b] 0 = Ok a.
Proof. reflexivity. Qed.

Lemma py_index_pair_1 {A} (a b : A) : py_index [a; b] 1 = Ok b.
Proof. reflexivity. Qed.

Lemma cpu_range_part_text (f l : Z) :
  0 <= f <= l ->
  Forall (fun c => cpu_char c = true) (String.list_ascii_of_string (cpu_range_part f l)) /\
  parse_list_part (cpu_range_part f l) = Ok (py_range f (l + 1)).
Proof.
  intros Hfl.
  destruct (py_str_int_digits f ltac:(lia)) as (df & Ef & Hnf & Hdf & Vf).
  destruct (py_str_int_digits l ltac:(lia)) as (dl & El & Hnl & Hdl & Vl).
  assert (Hcf : Forall (fun c => cpu_char c = true) df).
  { eapply Forall_impl; [exact Hdf|]. intros c Hc. unfold cpu_char. rewrite Hc. reflexivity. }
  assert (Hcl : Forall (fun c => cpu_char c = true) dl).
  { eapply Forall_impl; [exact Hdl|]. intros c Hc. unfold cpu_char. rewrite Hc. reflexivity. }
  unfold cpu_range_part. destruct (Z.eqb_spec f l) as [<-|Hne]; simpl negb; cbv iota.
  - rewrite Ef. split; [exact Hcf|].
    unfold parse_list_part.
    rewrite py_strip_no_space by (rewrite Ef; apply digits_not_space, Hdf).
    unfold py_contains. rewrite Ef, py_contains_digits by (auto || reflexivity).
    rewrite py_int_str by lia. cbn [mbind result_bind]. rewrite py_range_single. reflexivity.
  - assert (E : String.list_ascii_of_string
                  (String.append (py_str_int f) (String.append "-" (py_str_int l)))
                = df ++ "-"%char :: dl).
    { rewrite !list_ascii_append, Ef, El. reflexivity. }
    assert (Hc : Forall (fun c => cpu_char c = true) (df ++ "-"%char :: dl)).
    { apply Forall_app. split; [exact Hcf | constructor; [reflexivity | exact Hcl]]. }
    rewrite E. split; [exact Hc|].
    unfold parse_list_part.
    rewrite py_strip_no_space
      by (rewrite E; eapply Forall_impl; [exact Hc | exact cpu_char_not_space]).
    unfold py_contains, py_split1. rewrite E, existsb_app.
    change (existsb (fun c' => Ascii.eqb c' "-"%char) ("-"%char :: dl)) with true.
    rewrite orb_true_r.
    rewrite split_once_app by (apply py_contains_digits; [exact Hdf | reflexivity]).
    cbn [map]. rewrite <- Ef, <- El, !String.string_of_list_ascii_of_string.
    rewrite (py_index_pair_0 (py_str_int f) (py_str_int l)),
            (py_index_pair_1 (py_str_int f) (py_str_int l)).
    cbn [mbind result_bind]. rewrite !py_int_str by lia. reflexivity.
Qed.

Lemma format_cpu_loop_ranges (xs : list Z) (f l : Z) (parts : list string) :
  0 <= f <= l -> Forall (fun x => 0 <= x) xs ->
  exists rs f' l',
    format_cpu_loop xs (Some (f, l)) parts = (Some (f', l'), parts ++ map range_part rs) /\
    Forall (fun r => 0 <= r.1 <= r.2) rs /\ 0 <= f' <= l' /\
    concat (map range_of rs) ++ py_range f' (l' + 1) = py_range f (l + 1) ++ xs.
Proof.
  revert f l parts. induction xs as [|x xs IH]; intros f l parts Hfl Hxs.
  - exists [], f, l. rewrite app_nil_r, app_nil_r. simpl. auto.
  - apply Forall_cons in Hxs as [Hx Hxs]. simpl.
    destruct (Z.eqb_spec x (l + 1)) as [->|Hne]; simpl negb; cbv iota.
    + destruct (IH f (l + 1) parts ltac:(lia) Hxs) as (rs & f' & l' & E & Hrs & Hfl' & Hcat).
      exists rs, f', l'. split; [exact E|]. split; [exact Hrs|]. split; [exact Hfl'|].
      rewrite Hcat, py_range_snoc by lia. rewrite <- app_assoc. reflexivity.
    + destruct (IH x x (parts ++ [cpu_range_part f l]) ltac:(lia) Hxs)
        as (rs & f' & l' & E & Hrs & Hfl' & Hcat).
      exists ((f, l) :: rs), f', l'. split.
      { rewrite E, <- app_assoc. reflexivity. }
      split; [constructor; [exact Hfl | exact Hrs]|]. split; [exact Hfl'|].
      simpl. rewrite <- app_assoc, Hcat, py_range_single. reflexivity.
Qed.

Lemma list_ascii_concat_split (ps : list string) :
  ps <> [] ->
  Forall (fun p => Forall (fun c => cpu_char c = true) (String.list_ascii_of_string p)) ps ->
  split_on ","%char (String.list_ascii_of_string (String.concat "," ps)) =
  map String.list_ascii_of_string ps.
Proof.
  assert (Hno : forall p, Forall (fun c => cpu_char c = true) (String.list_ascii_of_string p) ->
            existsb (fun c => Ascii.eqb c ","%char) (String.list_ascii_of_string p) = false).
  { intros p Hp. induction Hp as [|c l Hc _ IH]; [reflexivity|].
    simpl. rewrite IH, orb_false_r.
    destruct (Ascii.eqb_spec c ","%char) as [->|]; [discriminate Hc | reflexivity]. }
  induction ps as [|p ps IH]; intros Hne Hps; [contradiction|].
  apply Forall_cons in Hps as [Hp Hps].
  destruct ps as [|q ps].
  - simpl. apply split_on_no_sep, Hno, Hp.
  - change (String.concat "," (p :: q :: ps))
      with (String.append p (String.append "," (String.concat "," (q :: ps)))).
    rewrite list_ascii_append.
    change (String.list_ascii_of_string (String.append "," ?x))
      with (","%char :: String.list_ascii_of_string x).
    rewrite split_on_app by (apply Hno, Hp). rewrite IH by (discriminate || exact Hps).
    reflexivity.
Qed.

Lemma parse_list_parts_ranges (rs : list (Z * Z)) :
  Forall (fun r => 0 <= r.1 <= r.2) rs ->
  parse_list_parts (map range_part rs) = Ok (concat (map range_of rs)).
Proof.
  induction 1 as [|[f l] rs Hr _ IH]; [reflexivity|].
  cbn [map parse_list_parts]. change (range_part (f, l)) with (cpu_range_part f l).
  cbn [fst snd] in Hr.
  rewrite (proj2 (cpu_range_part_text f l Hr)). cbn [mbind result_bind].
  rewrite IH. reflexivity.
Qed.

Lemma format_cpu_list_text (cpus : list Z) :
  cpus <> [] -> Forall (fun c => 0 <= c) cpus ->
  py_strip (format_cpu_list cpus) = format_cpu_list cpus /\
  format_cpu_list cpus <> ""%string /\
  parse_list_parts (py_split (format_cpu_list cpus) ","%char) = Ok (merge_sort Z.le cpus).
Proof.
  intros Hne Hpos.
  pose proof (merge_sort_Permutation Z.le cpus) as Hperm.
  assert (Hpos' : Forall (fun c => 0 <= c) (merge_sort Z.le cpus))
    by (eapply Permutation_Forall; [symmetry; exact Hperm | exact Hpos]).
  unfold format_cpu_list.
  destruct (merge_sort Z.le cpus) as [|y ys] eqn:Es.
  { apply Permutation_nil in Hperm. contradiction. }
  apply Forall_cons in Hpos' as [Hy Hys].
  simpl format_cpu_loop.
  destruct (format_cpu_loop_ranges ys y y [] ltac:(lia) Hys)
    as (rs & f' & l' & E & Hrs & Hfl' & Hcat).
  rewrite E. simpl app.
  set (all := rs ++ [(f', l')]).
  assert (Hall : Forall (fun r => 0 <= r.1 <= r.2) all)
    by (apply Forall_app; split; [exact Hrs | constructor; [exact Hfl' | constructor]]).
  assert (Hps : map range_part rs ++ [cpu_range_part f' l'] = map range_part all)
    by (unfold all; rewrite map_app; reflexivity).
  rewrite Hps.
  assert (Htext : Forall (fun p => Forall (fun c => cpu_char c = true)
                                     (String.list_ascii_of_string p)) (map range_part all)).
  { apply Forall_fmap. eapply Forall_impl; [exact Hall|].
    intros [f l] Hr. apply (cpu_range_part_text f l Hr). }
  assert (Hnn : map range_part all <> []) by (unfold all; rewrite map_app; destruct (map range_part rs); discriminate).
  assert (Hchars : Forall (fun c => is_space c = false)
              (String.list_ascii_of_string (String.concat "," (map range_part all)))).
  { clear -Htext. induction Htext as [|p ps Hp Hps IH]; [constructor|].
    destruct ps as [|q ps].
    - simpl. eapply Forall_impl; [exact Hp | exact cpu_char_not_space].
    - change (String.concat "," (p :: q :: ps))
        with (String.append p (String.append "," (String.concat "," (q :: ps)))).
      rewrite list_ascii_append.
      change (String.list_ascii_of_string (String.append "," ?x))
        with (","%char :: String.list_ascii_of_string x).
      apply Forall_app. split.
      + eapply Forall_impl; [exact Hp | exact cpu_char_not_space].
      + constructor; [reflexivity | exact IH]. }
  split; [apply py_strip_no_space, Hchars|].
  split.
  { intros Hemp.
    assert (Hlast : String.list_ascii_of_string (cpu_range_part f' l') <> []).
    { destruct (py_str_int_digits l') as (dl & El & Hnl & _); [lia|].
      unfold cpu_range_part. destruct (negb _).
      - rewrite !list_ascii_append. intros H. apply app_eq_nil in H as [_ H]. discriminate H.
      - rewrite El. exact Hnl. }
    destruct (map range_part all) as [|p [|q ps]] eqn:Em; [contradiction| |].
    - simpl in Hemp. subst p. unfold all in Em. rewrite map_app in Em.
      apply app_eq_unit in Em as [[_ E2]|[_ E2]]; [|discriminate E2].
      injection E2 as E2. change (range_part (f', l')) with (cpu_range_part f' l') in E2.
      rewrite E2 in Hlast. apply Hlast. reflexivity.
    - simpl in Hemp. destruct p; discriminate Hemp. }
  unfold py_split. rewrite list_ascii_concat_split by assumption.
  rewrite map_map.
  rewrite (List.map_ext _ (fun x : string => x))
    by (intros; apply String.string_of_list_ascii_of_string).
  rewrite List.map_id, parse_list_parts_ranges by exact Hall.
  f_equal. unfold all. rewrite map_app, concat_app. simpl. rewrite app_nil_r.
  unfold range_of at 2. cbn [fst snd]. rewrite Hcat, py_range_single. reflexivity.
Qed.

(** X1: [_parse_cpu_list] reads back what [_format_cpu_list] writes: for a
    non-empty list of non-negative cpus, in any order and with repeats,
    parsing the formatted text gives [Some] of the sorted list. *)
Lemma format_parse_cpu_list (cpus : list Z) :
  cpus <> [] -> Forall (fun c => 0 <= c) cpus ->
  parse_cpu_list (format_cpu_list cpus) = Ok (Some (merge_sort Z.le cpus)).
Proof.
  intros Hne Hpos. destruct (format_cpu_list_text cpus Hne Hpos) as (Hs & Hnn & Hp).
  unfold parse_cpu_list. rewrite Hs.
  destruct (String.eqb_spec (format_cpu_list cpus) "") as [|_]; [contradiction|].
  rewrite Hp. reflexivity.
Qed.

Lemma fold_min_ge (rest : list Z) (r0 : Z) :
  (fold_left Z.min rest r0 <? 1) = false <-> Forall (fun x => 1 <= x) (r0 :: rest).
Proof.
  revert r0. induction rest as [|r rest IH]; intros r0; simpl.
  - rewrite Z.ltb_ge. split; [intros; constructor; [lia | constructor] | intros H; inversion H; lia].
  - rewrite IH, !Forall_cons, Z.min_glb_iff. tauto.
Qed.

(** X4: [_parse_run_list] on the text [_format_cpu_list] writes for a
    non-empty list of numbers all at least 1 gives the sorted list with 1
    subtracted from every number. *)
Lemma format_parse_run_list (runs : list Z) :
  runs <> [] -> Forall (fun r => 1 <= r) runs ->
  parse_run_list (format_cpu_list runs) = Ok (map (fun r => r - 1) (merge_sort Z.le runs)).
Proof.
  intros Hne Hpos.
  assert (H0 : Forall (fun c => 0 <= c) runs)
    by (eapply Forall_impl; [exact Hpos | simpl; intros; lia]).
  destruct (format_cpu_list_text runs Hne H0) as (Hs & Hnn & Hp).
  pose proof (merge_sort_Permutation Z.le runs) as Hperm.
  assert (Hpos' : Forall (fun c => 1 <= c) (merge_sort Z.le runs))
    by (eapply Permutation_Forall; [symmetry; exact Hperm | exact Hpos]).
  unfold parse_run_list. rewrite Hs, Hp. cbn [mbind result_bind].
  destruct (merge_sort Z.le runs) as [|r0 rest] eqn:Es.
  { apply Permutation_nil in Hperm. contradiction. }
  apply fold_min_ge in Hpos'. rewrite Hpos'. reflexivity.
Qed.

Lemma split_once_has_sep (sep : Ascii.ascii) (l : list Ascii.ascii) :
  existsb (fun c => Ascii.eqb c sep) l = true -> exists a b, split_once sep l = [a; b].
Proof.
  induction l as [|c l IH]; simpl; [discriminate|].
  destruct (Ascii.eqb c sep); simpl; intros H; [eauto|].
  destruct (IH H) as (a & b & ->). eauto.
Qed.

Lemma py_int_error (s : string) (e : exn) :
  py_int s = Err e -> e = ValueError "invalid literal for int() with base 10".
Proof.
  unfold py_int. repeat case_match; intros Herr; inversion Herr; reflexivity.
Qed.

Lemma parse_list_part_error (part : string) (e : exn) :
  parse_list_part part = Err e -> e = ValueError "invalid literal for int() with base 10".
Proof.
  unfold parse_list_part. destruct (py_contains (py_strip part) "-"%char) eqn:Hc.
  - unfold py_contains in Hc. unfold py_split1.
    destruct (split_once_has_sep _ _ Hc) as (a & b & ->).
    cbn [map]. rewrite py_index_pair_0, py_index_pair_1. cbn [mbind result_bind].
    destruct (py_int (String.string_of_list_ascii a)) eqn:Ea; [|intros H; inversion H; subst; eapply py_int_error; exact Ea].
    cbn [mbind result_bind].
    destruct (py_int (String.string_of_list_ascii b)) eqn:Eb; [discriminate|].
    intros H; inversion H; subst; eapply py_int_error; exact Eb.
  - destruct (py_int (py_strip part)) eqn:E; cbn [mbind result_bind]; [discriminate|].
    intros H; inversion H; subst; eapply py_int_error; exact E.
Qed.

Lemma parse_list_parts_error (parts : list string) (e : exn) :
  parse_list_parts parts = Err e -> e = ValueError "invalid literal for int() with base 10".
Proof.
  induction parts as [|p parts IH]; simpl; [discriminate|].
  destruct (parse_list_part p) eqn:Ep; cbn [mbind result_bind].
  - destruct (parse_list_parts parts); cbn [mbind result_bind]; [discriminate|].
    intros H; inversion H; subst; apply IH; reflexivity.
  - intros H; inversion H; subst; eapply parse_list_part_error; exact Ep.
Qed.

(** X5: the only exception [_parse_cpu_list] raises is the [ValueError] of
    [int()]; an index error on [parts[1]] never happens. *)
Lemma parse_cpu_list_errors (s : string) (e : exn) :
  parse_cpu_list s = Err e -> e = ValueError "invalid literal for int() with base 10".
Proof.
  unfold parse_cpu_list. destruct (String.eqb _ _); [discriminate|].
  destruct (parse_list_parts _) eqn:E; cbn [mbind result_bind]; [discriminate|].
  intros H; inversion H; subst; eapply parse_list_parts_error; exact E.
Qed.

(** X6: every exception [_parse_run_list] raises is one of its three
    [ValueError]s: invalid list, empty list, or a run number below 1. *)
Lemma parse_run_list_errors (s : string) (e : exn) :
  parse_run_list s = Err e ->
  e = ValueError "invalid list of runs" \/ e = ValueError "empty list of runs" \/
  e = ValueError "number of runs starts at 1".
Proof.
  unfold parse_run_list. destruct (parse_list_parts _) as [runs|e'] eqn:E; cbn [mbind result_bind].
  - destruct runs as [|r0 rest]; [intros H; inversion H; auto|].
    destruct (_ <? 1); intros H; inversion H; auto.
  - apply parse_list_parts_error in E. subst e'. simpl. intros H; inversion H; auto.
Qed.

(** X2: [_parse_run_list] succeeds exactly when [_parse_cpu_list] returns a
    non-empty list of numbers that are all at least 1, and then returns those
    numbers minus 1, in the same order. *)
Lemma parse_run_list_cpu_list (s : string) (runs : list Z) :
  parse_run_list s = Ok runs <->
  exists cpus, parse_cpu_list s = Ok (Some cpus) /\ cpus <> [] /\
               Forall (fun c => 1 <= c) cpus /\ runs = map (fun c => c - 1) cpus.
Proof.
  unfold parse_run_list, parse_cpu_list.
  destruct (String.eqb_spec (py_strip s) "") as [He|_].
  - rewrite He. change (py_split "" ","%char) with [""%string].
    change (parse_list_parts [""%string]) with
      (Err (A := list Z) (ValueError "invalid literal for int() with base 10")).
    cbn [mbind result_bind is_value_error]. split; [discriminate|].
    intros (cpus & H & _). discriminate H.
  - destruct (parse_list_parts _) as [cpus|e] eqn:E; cbn [mbind result_bind].
    + destruct cpus as [|r0 rest].
      * split; [discriminate|]. intros (cpus & H & Hne & _). injection H as <-. contradiction.
      * destruct (fold_left Z.min rest r0 <? 1) eqn:Hm.
        -- split; [discriminate|]. intros (cpus & H & _ & Hpos & _).
           injection H as <-. apply fold_min_ge in Hpos. congruence.
        -- split.
           ++ intros H. injection H as <-. exists (r0 :: rest).
              split; [reflexivity|]. split; [discriminate|].
              split; [apply fold_min_ge, Hm | reflexivity].
           ++ intros (cpus & H & _ & _ & ->). injection H as <-. reflexivity.
    + apply parse_list_parts_error in E. subst e. cbn.
      split; [discriminate|]. intros (cpus & H & _). discriminate H.
Qed.

(** X3: on text that is empty after stripping whitespace, [_parse_cpu_list]
    returns [None] while [_parse_run_list] raises
    [ValueError("invalid list of runs")]. *)
Lemma parse_blank_lists (s : string) :
  py_strip s = ""%string ->
  parse_cpu_list s = Ok None /\ parse_run_list s = Err (ValueError "invalid list of runs").
Proof.
  intros He. unfold parse_cpu_list, parse_run_list. rewrite He. split; reflexivity.
Qed.

(** ** Instances of the hypotheses of the cpu and run list properties *)

Lemma format_parse_cpu_list_witness :
  [3; 1; 2; 7; 4; 4] <> [] /\ Forall (fun c => 0 <= c) [3; 1; 2; 7; 4; 4] /\
  parse_cpu_list (format_cpu_list [3; 1; 2; 7; 4; 4]) =
    Ok (Some (merge_sort Z.le [3; 1; 2; 7; 4; 4])).
Proof.
  assert (H1 : [3; 1; 2; 7; 4; 4] <> []) by discriminate.
  assert (H2 : Forall (fun c => 0 <= c) [3; 1; 2; 7; 4; 4]) by (repeat constructor; lia).
  split; [exact H1|]. split; [exact H2|]. exact (format_parse_cpu_list _ H1 H2).
Defined.

Lemma parse_blank_lists_witness :
  py_strip "   " = ""%string /\
  parse_cpu_list "   " = Ok None /\
  parse_run_list "   " = Err (ValueError "invalid list of runs").
Proof.
  assert (H : py_strip "   " = ""%string) by reflexivity.
  split; [exact H | exact (parse_blank_lists _ H)].
Defined.

Lemma format_parse_run_list_witness :
  [5; 2; 3] <> [] /\ Forall (fun r => 1 <= r) [5; 2; 3] /\
  parse_run_list (format_cpu_list [5; 2; 3]) =
    Ok (map (fun r => r - 1) (merge_sort Z.le [5; 2; 3])).
Proof.
  assert (H1 : [5; 2; 3] <> []) by discriminate.
  assert (H2 : Forall (fun r => 1 <= r) [5; 2; 3]) by (repeat constructor; lia).
  split; [exact H1|]. split; [exact H2|]. exact (format_parse_run_list _ H1 H2).
Defined.

Lemma parse_cpu_list_errors_witness :
  parse_cpu_list "0-3,x" = Err (ValueError "invalid literal for int() with base 10") /\
  ValueError "invalid literal for int() with base 10" =
    ValueError "invalid literal for int() with base 10".
Proof.
  assert (H : parse_cpu_list "0-3,x" =
              Err (ValueError "invalid literal for int() with base 10")) by (vm_compute; reflexivity).
  split; [exact H | exact (parse_cpu_list_errors _ _ H)].
Defined.

Lemma parse_run_list_errors_witness :
  parse_run_list "0-2" = Err (ValueError "number of runs starts at 1") /\
  (ValueError "number of runs starts at 1" = ValueError "invalid list of runs" \/
   ValueError "number of runs starts at 1" = ValueError "empty list of runs" \/
   ValueError "number of runs starts at 1" = ValueError "number of runs starts at 1").
Proof.
  assert (H : parse_run_list "0-2" = Err (ValueError "number of runs starts at 1"))
    by (vm_compute; reflexivity).
  split; [exact H | exact (parse_run_list_errors _ _ H)].
Defined.

(* ================================================================== *)
(** * More of [perf/__init__.py]: median, raw and worker samples, warmups *)

Lemma bench_wfb_sound (b : bench) : bench_wfb b = true -> bench_wf b.
Proof.
  unfold bench_wfb. intros H.
  repeat match type of H with
         | (_ && _) = true => apply andb_prop in H as [H ?]
         end.
  rename H into Hl.
  match goal with
  | Hn : match b_metadata b !! "name"%string with _ => _ end = true,
    Hs : match b_samples b with _ => _ end = true,
    He : match b_runs b with _ => _ end = true,
    Hr : forallb _ (b_runs b) = true,
    Hw : (0 <=? b_warmups b) = true,
    Hi : match b_inner_loops b with _ => _ end = true |- _ =>
    split; [apply Z.leb_le, Hl|];
    split; [intros i Ei; rewrite Ei in Hi; apply Z.leb_le, Hi|];
    split; [apply Z.leb_le, Hw|];
    split; [|split; [|split]]
  end.
  - intros r Hin. rewrite forallb_forall in *.
    match goal with Hr : forall x, In x (b_runs b) -> _ |- _ =>
      specialize (Hr r Hin); apply andb_prop in Hr as [Hp Hle] end.
    split; [|apply Z.leb_le, Hle].
    apply Forall_forall. intros v Hv. rewrite forallb_forall in Hp.
    apply Hp, list_elem_of_In, Hv.
  - intros r r' Hin Hin'.
    destruct (b_runs b) as [|r0 rest] eqn:E; [destruct Hin|].
    match goal with He : forallb _ (r0 :: rest) = true |- _ =>
      rewrite forallb_forall in He;
      pose proof (He r Hin) as E1; pose proof (He r' Hin') as E2 end.
    apply Nat.eqb_eq in E1, E2. congruence.
  - left. destruct (b_samples b); [discriminate | reflexivity].
  - match goal with Hn : match b_metadata b !! _ with _ => _ end = true |- _ => revert Hn end.
    destruct (b_metadata b !! "name"%string) as [[| | | | s | |]|]; intros Hn; try discriminate.
    apply andb_prop in Hn as [E1 E2]. exists s.
    split; [reflexivity|]. split; [apply String.eqb_eq, E1|].
    intros E. rewrite E in E2. discriminate.
Qed.

(** X8: once [median()] has returned a value [m] on a benchmark with no
    cached median, [m] is stored in [_median] and the samples in [_samples]:
    a second [median()] or [get_samples()] returns the same value without
    changing the object, and the runs, loops, inner loops, warmups and
    metadata are left as they were. *)
Lemma median_cached (b : bench) (m : Q) :
  b_median b = None -> fst (median b) = MedianOk m ->
  b_median (snd (median b)) = Some m /\
  median (snd (median b)) = (MedianOk m, snd (median b)) /\
  (exists s, fst (get_samples b) = Ok s /\
             get_samples (snd (median b)) = (Ok s, snd (median b))) /\
  bench_fields (snd (median b)) = bench_fields b.
Proof.
  intros Hmed Hm.
  assert (Hgs : exists s b1, get_samples b = (Ok s, b1) /\ b_samples b1 = Some s /\
                             bench_fields b1 = bench_fields b).
  { unfold get_samples. destruct (b_samples b) as [s0|] eqn:Hs.
    - exists s0, b. auto.
    - destruct (get_loops b) as [L|e] eqn:Hl.
      + eexists _, _. split; [reflexivity|]. split; reflexivity.
      + exfalso. unfold median, get_samples in Hm. rewrite Hmed, Hs, Hl in Hm. discriminate. }
  destruct Hgs as (s & b1 & Eg & Hs1 & Hf1).
  unfold median in Hm |- *. rewrite Hmed in Hm |- *. rewrite Eg in Hm |- *.
  destruct (statistics_median s) as [m'|e]; [|discriminate].
  destruct (Qeq_bool m' 0); [discriminate|]. injection Hm as <-.
  cbn [fst snd b_median]. split; [reflexivity|]. split; [reflexivity|]. split.
  - exists s. split; [reflexivity|].
    unfold get_samples. cbn [b_samples]. rewrite Hs1. reflexivity.
  - exact Hf1.
Qed.

(** X9: [median()] of a well-formed benchmark with no run and no cached
    median raises [StatisticsError]. *)
Lemma median_no_runs (b : bench) :
  bench_wf b -> b_median b = None -> b_runs b = [] ->
  fst (median b) = MedianErr StatisticsError.
Proof.
  intros Hwf Hmed Hr. pose proof (get_loops_wf b Hwf) as Hgl.
  destruct Hwf as (_ & _ & _ & _ & _ & Hs & _).
  unfold median. rewrite Hmed. unfold get_samples.
  destruct Hs as [Hs|Hs]; rewrite Hs; [rewrite Hgl|]; rewrite Hr; reflexivity.
Qed.

Lemma flat_map_map {A B C} (f : A -> list B) (g : B -> C) (l : list A) :
  flat_map (fun x => map g (f x)) l = map g (flat_map f l).
Proof. induction l as [|x l IH]; simpl; [reflexivity|]. rewrite map_app, IH. reflexivity. Qed.

(** X11: on a well-formed benchmark, [get_samples()] is
    [_get_raw_samples()] with every value divided by [get_loops()], and
    [_get_raw_samples()] holds [get_nsample()] values. *)
Lemma raw_samples_wf (b : bench) :
  bench_wf b ->
  fst (get_samples b) =
    Ok (map (fun x => (num_val x / inject_Z (loops_value b))%Q) (get_raw_samples b)) /\
  Z.of_nat (length (get_raw_samples b)) = get_nsample b.
Proof.
  intros Hwf. split.
  - rewrite (proj1 (get_samples_wf b Hwf)). unfold compute_samples, get_raw_samples.
    rewrite flat_map_map. reflexivity.
  - destruct Hwf as (_ & _ & Hw & Hr & Hlen & _).
    unfold get_nsample, get_raw_samples.
    destruct (b_runs b) as [|r0 rest] eqn:E; [reflexivity|].
    assert (Hall : forall r, In r (r0 :: rest) -> length r = length r0)
      by (intros r Hin; apply Hlen; [exact Hin | left; reflexivity]).
    assert (H0 : b_warmups b + 1 <= Z.of_nat (length r0)) by (apply Hr; left; reflexivity).
    assert (Hfm : forall rs : list (list pyval), (forall r, In r rs -> length r = length r0) ->
              length (flat_map (fun r => py_slice_from r (b_warmups b)) rs) =
              (length rs * (length r0 - Z.to_nat (b_warmups b)))%nat).
    { induction rs as [|r rs IH]; intros Hrs; [reflexivity|].
      simpl. rewrite length_app, IH by (intros; apply Hrs; right; assumption).
      unfold py_slice_from.
      replace (0 <=? b_warmups b) with true by (symmetry; apply Z.leb_le; lia).
      rewrite length_drop, (Hrs r (or_introl eq_refl)). lia. }
    rewrite Hfm by exact Hall. lia.
Qed.

(** X12: for a well-formed worker result with exactly one run [r] and the
    same loops, inner loops and warmups as a well-formed benchmark,
    [_get_worker_samples] returns [r]; [add_run(r)] then appends [r] when the
    benchmark has no run or runs of the length of [r], and raises
    [ValueError("different number of samples")] otherwise. *)
Lemma worker_samples_add_run (self w : bench) (r : list pyval) :
  bench_wf self -> bench_wf w ->
  b_runs w = [r] -> b_loops w = b_loops self -> b_inner_loops w = b_inner_loops self ->
  b_warmups w = b_warmups self ->
  get_worker_samples self w = Ok r /\
  (match b_runs self with
   | [] => True
   | r0 :: _ => length r = length r0
   end ->
   add_run self (PList r) =
     (None, mkBench (b_loops self) (b_inner_loops self) (b_warmups self)
                    (b_runs self ++ [r]) None None (b_metadata self))) /\
  (match b_runs self with
   | [] => False
   | r0 :: _ => length r <> length r0
   end ->
   add_run self (PList r) = (Some (ValueError "different number of samples"), self)).
Proof.
  intros Hs Hw Hr Hl Hi Hwu.
  assert (Hget : get_worker_samples self w = Ok r).
  { unfold get_worker_samples. rewrite Hr, Hl, Hi, Hwu, !bool_decide_eq_true_2 by reflexivity.
    reflexivity. }
  destruct Hw as (_ & _ & _ & Hrw & _).
  destruct (Hrw r ltac:(rewrite Hr; left; reflexivity)) as [Hpos Hlen].
  rewrite Hwu in Hlen.
  assert (HW : 0 <= b_warmups self) by (destruct Hs as (_ & _ & ? & _); assumption).
  split; [exact Hget|]. split.
  - intros Hl0. apply add_run_ok.
    + exact HW.
    + exact Hpos.
    + exact Hlen.
    + intros r0 rest E. rewrite E in Hl0. exact Hl0.
  - intros Hl0. destruct (b_runs self) as [|r0 rest] eqn:E; [contradiction|].
    unfold add_run.
    replace (truthy (PList r)) with true
      by (destruct r; [simpl in Hlen; lia | reflexivity]).
    cbn [negb py_iter]. rewrite forall_existsb_negb by exact Hpos.
    replace (Z.of_nat (length r) - b_warmups self <? 1) with false
      by (symmetry; apply Z.ltb_ge; lia).
    rewrite E. replace (length r =? length r0)%nat with false
      by (symmetry; apply Nat.eqb_neq; exact Hl0).
    reflexivity.
Qed.

(** X13: the warmups setter does not check the length of the runs (its
    FIXME): on a well-formed benchmark with runs of length [n], setting
    warmups to [w >= n] succeeds, after which [get_nsample()] is at most 0
    (negative when [w > n]), [get_samples()] is empty and every [add_run]
    raises. *)
Lemma warmups_past_run_length (b : bench) (w : Z) (r0 : list pyval) (rest : list (list pyval)) :
  bench_wf b -> b_runs b = r0 :: rest -> Z.of_nat (length r0) <= w ->
  exists b',
    set_warmups b (PInt w) = Ok b' /\
    get_nsample b' <= 0 /\
    (Z.of_nat (length r0) < w -> get_nsample b' < 0) /\
    fst (get_samples b') = Ok [] /\
    forall samples, fst (add_run b' samples) <> None.
Proof.
  intros Hwf Hr Hw.
  pose proof Hwf as (Hl & Hi & HW & Hrs & Hlen & _).
  assert (H0 : b_warmups b + 1 <= Z.of_nat (length r0)) by (apply Hrs; rewrite Hr; left; reflexivity).
  set (b' := mkBench (b_loops b) (b_inner_loops b) w (b_runs b) None None (b_metadata b)).
  exists b'. split.
  { unfold set_warmups. cbn [as_int].
    replace (0 <=? w) with true by (symmetry; apply Z.leb_le; lia). reflexivity. }
  assert (Hn : get_nsample b' = Z.of_nat (length (r0 :: rest)) * (Z.of_nat (length r0) - w))
    by (unfold get_nsample; simpl; rewrite Hr; reflexivity).
  split; [rewrite Hn; simpl length; nia|].
  split; [intros Hlt; rewrite Hn; simpl length; nia|].
  split.
  - unfold get_samples. simpl b_samples. cbv iota.
    unfold get_loops. simpl b_loops.
    replace (b_loops b =? 0) with false by (symmetry; apply Z.eqb_neq; lia).
    cbv iota. cbn [fst]. f_equal. unfold compute_samples. simpl b_runs. simpl b_warmups.
    assert (Hall : forall r, In r (b_runs b) -> py_slice_from r w = []).
    { intros r Hin. unfold py_slice_from.
      replace (0 <=? w) with true by (symmetry; apply Z.leb_le; lia).
      apply drop_ge. rewrite (Hlen r r0 Hin ltac:(rewrite Hr; left; reflexivity)). lia. }
    revert Hall. generalize (b_runs b) as l. induction l as [|r rs IH]; intros Hall; [reflexivity|].
    simpl. rewrite Hall by (left; reflexivity). apply IH.
    intros r' Hin. apply Hall. right. exact Hin.
  - intros samples Hok.
    destruct (add_run_cases b' samples) as [[Hne _]|[_ (values & _ & _ & Hv & Hsame & _)]];
      [contradiction|].
    specialize (Hsame r0 rest Hr). simpl b_warmups in Hv. lia.
Qed.

(** ** Instances of the hypotheses of the median and samples properties *)

Lemma median_cached_witness :
  b_median (mkBench 1 None 0 [[PInt 5; PInt 3; PInt 1; PInt 2]] None None {["name" := PStr "bench"]}) = None /\
  fst (median (mkBench 1 None 0 [[PInt 5; PInt 3; PInt 1; PInt 2]] None None {["name" := PStr "bench"]})) = MedianOk (5#2) /\
  b_median (snd (median (mkBench 1 None 0 [[PInt 5; PInt 3; PInt 1; PInt 2]] None None {["name" := PStr "bench"]}))) = Some (5#2) /\
  median (snd (median (mkBench 1 None 0 [[PInt 5; PInt 3; PInt 1; PInt 2]] None None {["name" := PStr "bench"]}))) = (MedianOk (5#2), snd (median (mkBench 1 None 0 [[PInt 5; PInt 3; PInt 1; PInt 2]] None None {["name" := PStr "bench"]}))) /\
  (exists s, fst (get_samples (mkBench 1 None 0 [[PInt 5; PInt 3; PInt 1; PInt 2]] None None {["name" := PStr "bench"]})) = Ok s /\
             get_samples (snd (median (mkBench 1 None 0 [[PInt 5; PInt 3; PInt 1; PInt 2]] None None {["name" := PStr "bench"]}))) = (Ok s, snd (median (mkBench 1 None 0 [[PInt 5; PInt 3; PInt 1; PInt 2]] None None {["name" := PStr "bench"]})))) /\
  bench_fields (snd (median (mkBench 1 None 0 [[PInt 5; PInt 3; PInt 1; PInt 2]] None None {["name" := PStr "bench"]}))) = bench_fields (mkBench 1 None 0 [[PInt 5; PInt 3; PInt 1; PInt 2]] None None {["name" := PStr "bench"]}).
Proof.
  assert (H1 : b_median (mkBench 1 None 0 [[PInt 5; PInt 3; PInt 1; PInt 2]] None None {["name" := PStr "bench"]}) = None) by reflexivity.
  assert (H2 : fst (median (mkBench 1 None 0 [[PInt 5; PInt 3; PInt 1; PInt 2]] None None {["name" := PStr "bench"]})) = MedianOk (5#2)) by (vm_compute; reflexivity).
  split; [exact H1|]. split; [exact H2|].
  exact (median_cached _ _ H1 H2).
Defined.

Lemma median_no_runs_witness :
  bench_wf (mkBench 1 None 0 [] None None {["name" := PStr "bench"]}) /\ b_median (mkBench 1 None 0 [] None None {["name" := PStr "bench"]}) = None /\ b_runs (mkBench 1 None 0 [] None None {["name" := PStr "bench"]}) = [] /\
  fst (median (mkBench 1 None 0 [] None None {["name" := PStr "bench"]})) = MedianErr StatisticsError.
Proof.
  assert (H1 : bench_wf (mkBench 1 None 0 [] None None {["name" := PStr "bench"]})) by (apply bench_wfb_sound; vm_compute; reflexivity).
  assert (H2 : b_median (mkBench 1 None 0 [] None None {["name" := PStr "bench"]}) = None) by reflexivity.
  assert (H3 : b_runs (mkBench 1 None 0 [] None None {["name" := PStr "bench"]}) = []) by reflexivity.
  split; [exact H1|]. split; [exact H2|]. split; [exact H3|].
  exact (median_no_runs _ H1 H2 H3).
Defined.

Lemma raw_samples_wf_witness :
  bench_wf (mkBench 2 (Some 3%Z) 1 [[PInt 5; PInt 3]; [PInt 1; PInt 2]] None None {["name" := PStr "bench"]}) /\
  fst (get_samples (mkBench 2 (Some 3%Z) 1 [[PInt 5; PInt 3]; [PInt 1; PInt 2]] None None {["name" := PStr "bench"]})) =
    Ok (map (fun x => (num_val x / inject_Z (loops_value (mkBench 2 (Some 3%Z) 1 [[PInt 5; PInt 3]; [PInt 1; PInt 2]] None None {["name" := PStr "bench"]})))%Q) (get_raw_samples (mkBench 2 (Some 3%Z) 1 [[PInt 5; PInt 3]; [PInt 1; PInt 2]] None None {["name" := PStr "bench"]}))) /\
  Z.of_nat (length (get_raw_samples (mkBench 2 (Some 3%Z) 1 [[PInt 5; PInt 3]; [PInt 1; PInt 2]] None None {["name" := PStr "bench"]}))) = get_nsample (mkBench 2 (Some 3%Z) 1 [[PInt 5; PInt 3]; [PInt 1; PInt 2]] None None {["name" := PStr "bench"]}).
Proof.
  assert (H1 : bench_wf (mkBench 2 (Some 3%Z) 1 [[PInt 5; PInt 3]; [PInt 1; PInt 2]] None None {["name" := PStr "bench"]})) by (apply bench_wfb_sound; vm_compute; reflexivity).
  split; [exact H1 | exact (raw_samples_wf _ H1)].
Defined.

Lemma worker_samples_add_run_witness :
  bench_wf (mkBench 2 (Some 3%Z) 1 [[PInt 5; PInt 3]; [PInt 1; PInt 2]] None None {["name" := PStr "bench"]}) /\ bench_wf (mkBench 2 (Some 3%Z) 1 [[PInt 4; PInt 6]] None None {["name" := PStr "worker"]}) /\
  b_runs (mkBench 2 (Some 3%Z) 1 [[PInt 4; PInt 6]] None None {["name" := PStr "worker"]}) = [[PInt 4; PInt 6]] /\ b_loops (mkBench 2 (Some 3%Z) 1 [[PInt 4; PInt 6]] None None {["name" := PStr "worker"]}) = b_loops (mkBench 2 (Some 3%Z) 1 [[PInt 5; PInt 3]; [PInt 1; PInt 2]] None None {["name" := PStr "bench"]}) /\
  b_inner_loops (mkBench 2 (Some 3%Z) 1 [[PInt 4; PInt 6]] None None {["name" := PStr "worker"]}) = b_inner_loops (mkBench 2 (Some 3%Z) 1 [[PInt 5; PInt 3]; [PInt 1; PInt 2]] None None {["name" := PStr "bench"]}) /\ b_warmups (mkBench 2 (Some 3%Z) 1 [[PInt 4; PInt 6]] None None {["name" := PStr "worker"]}) = b_warmups (mkBench 2 (Some 3%Z) 1 [[PInt 5; PInt 3]; [PInt 1; PInt 2]] None None {["name" := PStr "bench"]}) /\
  get_worker_samples (mkBench 2 (Some 3%Z) 1 [[PInt 5; PInt 3]; [PInt 1; PInt 2]] None None {["name" := PStr "bench"]}) (mkBench 2 (Some 3%Z) 1 [[PInt 4; PInt 6]] None None {["name" := PStr "worker"]}) = Ok [PInt 4; PInt 6] /\
  (match b_runs (mkBench 2 (Some 3%Z) 1 [[PInt 5; PInt 3]; [PInt 1; PInt 2]] None None {["name" := PStr "bench"]}) with
   | [] => True
   | r0 :: _ => length [PInt 4; PInt 6] = length r0
   end ->
   add_run (mkBench 2 (Some 3%Z) 1 [[PInt 5; PInt 3]; [PInt 1; PInt 2]] None None {["name" := PStr "bench"]}) (PList [PInt 4; PInt 6]) =
     (None, mkBench (b_loops (mkBench 2 (Some 3%Z) 1 [[PInt 5; PInt 3]; [PInt 1; PInt 2]] None None {["name" := PStr "bench"]})) (b_inner_loops (mkBench 2 (Some 3%Z) 1 [[PInt 5; PInt 3]; [PInt 1; PInt 2]] None None {["name" := PStr "bench"]})) (b_warmups (mkBench 2 (Some 3%Z) 1 [[PInt 5; PInt 3]; [PInt 1; PInt 2]] None None {["name" := PStr "bench"]}))
                    (b_runs (mkBench 2 (Some 3%Z) 1 [[PInt 5; PInt 3]; [PInt 1; PInt 2]] None None {["name" := PStr "bench"]}) ++ [[PInt 4; PInt 6]]) None None (b_metadata (mkBench 2 (Some 3%Z) 1 [[PInt 5; PInt 3]; [PInt 1; PInt 2]] None None {["name" := PStr "bench"]})))) /\
  (match b_runs (mkBench 2 (Some 3%Z) 1 [[PInt 5; PInt 3]; [PInt 1; PInt 2]] None None {["name" := PStr "bench"]}) with
   | [] => False
   | r0 :: _ => length [PInt 4; PInt 6] <> length r0
   end ->
   add_run (mkBench 2 (Some 3%Z) 1 [[PInt 5; PInt 3]; [PInt 1; PInt 2]] None None {["name" := PStr "bench"]}) (PList [PInt 4; PInt 6]) =
     (Some (ValueError "different number of samples"), (mkBench 2 (Some 3%Z) 1 [[PInt 5; PInt 3]; [PInt 1; PInt 2]] None None {["name" := PStr "bench"]}))).
Proof.
  assert (H1 : bench_wf (mkBench 2 (Some 3%Z) 1 [[PInt 5; PInt 3]; [PInt 1; PInt 2]] None None {["name" := PStr "bench"]})) by (apply bench_wfb_sound; vm_compute; reflexivity).
  assert (H2 : bench_wf (mkBench 2 (Some 3%Z) 1 [[PInt 4; PInt 6]] None None {["name" := PStr "worker"]})) by (apply bench_wfb_sound; vm_compute; reflexivity).
  assert (H3 : b_runs (mkBench 2 (Some 3%Z) 1 [[PInt 4; PInt 6]] None None {["name" := PStr "worker"]}) = [[PInt 4; PInt 6]]) by reflexivity.
  assert (H4 : b_loops (mkBench 2 (Some 3%Z) 1 [[PInt 4; PInt 6]] None None {["name" := PStr "worker"]}) = b_loops (mkBench 2 (Some 3%Z) 1 [[PInt 5; PInt 3]; [PInt 1; PInt 2]] None None {["name" := PStr "bench"]})) by reflexivity.
  assert (H5 : b_inner_loops (mkBench 2 (Some 3%Z) 1 [[PInt 4; PInt 6]] None None {["name" := PStr "worker"]}) = b_inner_loops (mkBench 2 (Some 3%Z) 1 [[PInt 5; PInt 3]; [PInt 1; PInt 2]] None None {["name" := PStr "bench"]})) by reflexivity.
  assert (H6 : b_warmups (mkBench 2 (Some 3%Z) 1 [[PInt 4; PInt 6]] None None {["name" := PStr "worker"]}) = b_warmups (mkBench 2 (Some 3%Z) 1 [[PInt 5; PInt 3]; [PInt 1; PInt 2]] None None {["name" := PStr "bench"]})) by reflexivity.
  split; [exact H1|]. split; [exact H2|]. split; [exact H3|]. split; [exact H4|].
  split; [exact H5|]. split; [exact H6|].
  exact (worker_samples_add_run _ _ _ H1 H2 H3 H4 H5 H6).
Defined.

Lemma warmups_past_run_length_witness :
  bench_wf (mkBench 2 (Some 3%Z) 1 [[PInt 5; PInt 3]; [PInt 1; PInt 2]] None None {["name" := PStr "bench"]}) /\ b_runs (mkBench 2 (Some 3%Z) 1 [[PInt 5; PInt 3]; [PInt 1; PInt 2]] None None {["name" := PStr "bench"]}) = [PInt 5; PInt 3] :: [[PInt 1; PInt 2]] /\
  Z.of_nat (length [PInt 5; PInt 3]) <= 3 /\
  exists b',
    set_warmups (mkBench 2 (Some 3%Z) 1 [[PInt 5; PInt 3]; [PInt 1; PInt 2]] None None {["name" := PStr "bench"]}) (PInt 3) = Ok b' /\
    get_nsample b' <= 0 /\
    (Z.of_nat (length [PInt 5; PInt 3]) < 3 -> get_nsample b' < 0) /\
    fst (get_samples b') = Ok [] /\
    forall samples, fst (add_run b' samples) <> None.
Proof.
  assert (H1 : bench_wf (mkBench 2 (Some 3%Z) 1 [[PInt 5; PInt 3]; [PInt 1; PInt 2]] None None {["name" := PStr "bench"]})) by (apply bench_wfb_sound; vm_compute; reflexivity).
  assert (H2 : b_runs (mkBench 2 (Some 3%Z) 1 [[PInt 5; PInt 3]; [PInt 1; PInt 2]] None None {["name" := PStr "bench"]}) = [PInt 5; PInt 3] :: [[PInt 1; PInt 2]]) by reflexivity.
  assert (H3 : Z.of_nat (length [PInt 5; PInt 3]) <= 3) by (simpl; lia).
  split; [exact H1|]. split; [exact H2|]. split; [exact H3|].
  exact (warmups_past_run_length _ 3 _ _ H1 H2 H3).
Defined.

(* ================================================================== *)
(** * More of [perf/__init__.py]: one benchmark in a file, records, the t-test *)

Lemma length_get_benchmarks (s : suite) : length (get_benchmarks s) = size s.
Proof.
  unfold get_benchmarks. rewrite (Permutation_length (merge_sort_Permutation name_le _)).
  rewrite length_fmap. apply length_map_to_list.
Qed.

(** X15: [Benchmark.load] on a document that loads as a suite returns the suite's only benchmark when it holds exactly one, and otherwise raises [ValueError] naming the number of benchmarks. *)
Lemma bench_load_suite (doc : pyval) (s : suite) :
  load_json doc = Ok s ->
  bench_load doc =
    match (map_to_list s).*2 with
    | [b] => Ok b
    | _ => Err (ValueError (String.append "expected 1 benchmark, got "
                                          (py_str_int (Z.of_nat (size s)))))
    end.
Proof.
  intros Hl. unfold bench_load. rewrite Hl. cbn [mbind result_bind].
  rewrite length_get_benchmarks.
  pose proof (length_map_to_list s) as Hlen.
  unfold get_benchmarks.
  destruct ((map_to_list s).*2) as [|b [|b' l]] eqn:E.
  - rewrite <- Hlen. apply (f_equal length) in E. rewrite length_fmap in E. rewrite E. reflexivity.
  - apply (f_equal length) in E. rewrite length_fmap in E. rewrite <- Hlen, E. reflexivity.
  - apply (f_equal length) in E. rewrite length_fmap in E. rewrite <- Hlen, E. reflexivity.
Qed.

(** X14: dumping a well-formed benchmark with [Benchmark.dump] and reading the document back with [Benchmark.load] succeeds and gives a benchmark with the same runs, loops, inner_loops, warmups and metadata. *)
Lemma bench_dump_load (b : bench) :
  bench_wf b ->
  exists doc b', bench_dump b = Ok doc /\ bench_load doc = Ok b' /\
                 bench_fields b' = bench_fields b.
Proof.
  intros Hwf. pose proof Hwf as (_ & _ & _ & _ & _ & _ & n & Hname & _).
  destruct (json_load_as_json b Hwf) as (b' & Hj & Hf).
  exists (suite_dump {[n := b]}), b'. split; [|split; [|exact Hf]].
  - unfold bench_dump, suite_add_benchmark, bench_name. rewrite Hname. reflexivity.
  - assert (Hs : load_json (suite_dump {[n := b]}) = Ok {[n := b']}).
    { unfold load_json, suite_dump. rewrite map_to_list_singleton. simpl.
      rewrite Hj. cbn [mbind result_bind]. unfold suite_add. rewrite lookup_empty.
      cbn [mbind result_bind]. rewrite insert_empty, map_size_singleton. reflexivity. }
    rewrite (bench_load_suite _ _ Hs). rewrite map_to_list_singleton. reflexivity.
Qed.

(** X16: a benchmark record without [warmups], [loops] and [inner_loops] keys, with a named metadata dict and valid runs, loads with loops 1, no inner_loops, no warmups, the runs in order and the stripped name in its metadata. *)
Lemma json_load_defaults (d md : list (string * pyval)) (n : string)
    (runs : list (list pyval)) :
  assoc_get d "warmups" = None -> assoc_get d "loops" = None ->
  assoc_get d "inner_loops" = None ->
  assoc_get d "metadata" = Some (PDict md) -> assoc_get md "name" = Some (PStr n) ->
  py_strip n <> ""%string ->
  assoc_get d "runs" = Some (PList (map PList runs)) ->
  (forall r, In r runs ->
     Forall (fun v => is_positive_number v = true) r /\ 1 <= Z.of_nat (length r)) ->
  (forall r r', In r runs -> In r' runs -> length r = length r') ->
  json_load (PDict d) =
    Ok (mkBench 1 None 0 runs None None (<["name" := PStr (py_strip n)]> (dict_of_items md))).
Proof.
  intros Hw Hl Hi Hm Hn Hs Hr Hruns Hlen.
  unfold json_load, py_get. rewrite Hw, Hl, Hi, Hm. cbn [mbind result_bind].
  rewrite Hn. cbn [mbind result_bind].
  rewrite (bench_new_succeeds n 1 0 None (dict_of_items md)) by (auto; lia || discriminate).
  cbn [mbind result_bind]. unfold py_getitem. rewrite Hr. cbn [mbind result_bind py_iter].
  apply (add_runs_ok _ _ _ _ [] runs); [lia| |exact Hlen].
  intros r Hin. destruct (Hruns r Hin) as [Hp Hlr]. split; [exact Hp|lia].
Qed.

Lemma pooled_sample_variance_swap (a b : list R) :
  pooled_sample_variance b a = pooled_sample_variance a b.
Proof.
  unfold pooled_sample_variance.
  destruct a as [|x a], b as [|y b]; try reflexivity.
  cbn [mean mbind result_bind]. rewrite Rplus_comm. f_equal. f_equal. lia.
Qed.

(** X17: swapping the two samples negates the t score of [_tscore] and of [is_significant], keeps the significance flag and raises the same exceptions. *)
Lemma tscore_is_significant_swap (a b : list R) :
  tscore b a = (match tscore a b with Ok t => Ok (- t)%R | Err e => Err e end) /\
  is_significant b a =
    (match is_significant a b with Ok (s, t) => Ok (s, (- t)%R) | Err e => Err e end).
Proof.
  assert (Ht : tscore b a = (match tscore a b with Ok t => Ok (- t)%R | Err e => Err e end)).
  { unfold tscore. rewrite Nat.eqb_sym.
    destruct (length a =? length b)%nat eqn:El; [|reflexivity].
    apply Nat.eqb_eq in El. cbn [negb]. rewrite pooled_sample_variance_swap, El.
    destruct (pooled_sample_variance a b) as [p|e]; cbn [mbind result_bind]; [|reflexivity].
    destruct (py_div p (INR (length b))) as [er|e]; cbn [mbind result_bind]; [|reflexivity].
    destruct a as [|x a], b as [|y b]; cbn [mean mbind result_bind]; try reflexivity.
    destruct (py_sqrt (er * 2)) as [sq|e]; cbn [mbind result_bind]; [|reflexivity].
    unfold py_div. destruct (Req_EM_T sq 0); [reflexivity|]. f_equal. unfold Rdiv. ring. }
  split; [exact Ht|].
  unfold is_significant. rewrite Ht.
  replace (Z.of_nat (length b) + Z.of_nat (length a) - 2)
    with (Z.of_nat (length a) + Z.of_nat (length b) - 2) by lia.
  destruct (tdist95conf_level _) as [c|e]; cbn [mbind result_bind]; [|reflexivity].
  destruct (tscore a b) as [t|e]; cbn [mbind result_bind]; [|reflexivity].
  rewrite Rabs_Ropp. reflexivity.
Qed.

(** X18: no sequence of [add_run] and [get_samples] calls changes or removes a stored run: the runs afterwards extend the runs before, and loops, inner_loops, warmups and metadata are unchanged. *)
Lemma run_calls_append_only (b : bench) (calls : list bench_call) :
  exists new_runs,
    b_runs (run_calls b calls) = b_runs b ++ new_runs /\
    b_loops (run_calls b calls) = b_loops b /\
    b_inner_loops (run_calls b calls) = b_inner_loops b /\
    b_warmups (run_calls b calls) = b_warmups b /\
    b_metadata (run_calls b calls) = b_metadata b.
Proof.
  revert b. induction calls as [|c calls IH]; intros b.
  - exists []. rewrite app_nil_r. repeat split.
  - change (run_calls b (c :: calls)) with (run_calls (bench_call_step b c) calls).
    destruct (IH (bench_call_step b c)) as (rs & Er & El & Ei & Ew & Em).
    rewrite Er, El, Ei, Ew, Em.
    destruct c as [samples|]; cbn [bench_call_step].
    + destruct (add_run_cases b samples) as [[_ ->] | (_ & values & _ & _ & _ & _ & ->)].
      * exists rs. repeat split.
      * exists (values :: rs). simpl. rewrite <- app_assoc. repeat split.
    + unfold get_samples.
      destruct (b_samples b); [exists rs; repeat split|].
      destruct (get_loops b); exists rs; repeat split.
Qed.

(** X19: [_json_load] raises [AttributeError] on a record without metadata, and never loads a record without [runs]. *)
Lemma json_load_missing_keys (d : list (string * pyval)) :
  (assoc_get d "metadata" = None ->
   json_load (PDict d) = Err (AttributeError "object has no attribute 'get'")) /\
  (assoc_get d "runs" = None -> exists e, json_load (PDict d) = Err e).
Proof.
  split.
  - intros Hm. unfold json_load, py_get. rewrite Hm. reflexivity.
  - intros Hr. unfold json_load.
    destruct (py_get (PDict d) "warmups" (PInt 0)); cbn [mbind result_bind]; [|eauto].
    destruct (py_get (PDict d) "loops" (PInt 1)); cbn [mbind result_bind]; [|eauto].
    destruct (py_get (PDict d) "inner_loops" PNone); cbn [mbind result_bind]; [|eauto].
    destruct (py_get (PDict d) "metadata" PNone); cbn [mbind result_bind]; [|eauto].
    destruct (py_get _ "name" PNone); cbn [mbind result_bind]; [|eauto].
    destruct (bench_new _ _ _ _ _); cbn [mbind result_bind]; [|eauto].
    unfold py_getitem. rewrite Hr. eauto.
Qed.

Lemma py_round_inject_Z (z : Z) : py_round (inject_Z z) = z.
Proof.
  unfold py_round. rewrite Qfloor_Z.
  replace (Qle_bool (1#2) (inject_Z z - inject_Z z)) with false; [reflexivity|].
  symmetry. apply not_true_iff_false. rewrite Qle_bool_iff. intros H. Lqa.lra.
Qed.

Lemma level_at_large (z : Z) : 200 <= z -> tdist95conf_level (inject_Z z) = Ok (1960#1000)%Q.
Proof.
  intros Hz. unfold tdist95conf_level. rewrite py_round_inject_Z.
  replace (200 <=? z) with true by (symmetry; apply Z.leb_le; lia). reflexivity.
Qed.

Lemma level_at_step (z : Z) : 1 <= z -> (level_at (z + 1) <= level_at z)%Q.
Proof.
  intros Hz. destruct (Z_lt_le_dec z 200) as [Hlt|Hge].
  - assert (Hall : forallb (fun n => let z := Z.of_nat n + 1 in
                                     Qle_bool (level_at (z + 1)) (level_at z))
                           (seq 0 199) = true) by (vm_compute; reflexivity).
    rewrite forallb_forall in Hall.
    specialize (Hall (Z.to_nat (z - 1))).
    replace (Z.of_nat (Z.to_nat (z - 1)) + 1) with z in Hall by lia.
    apply Qle_bool_iff, Hall, in_seq. lia.
  - unfold level_at. rewrite !level_at_large by lia. apply Qle_refl.
Qed.

(** X20: at integer degrees of freedom from 1 on, [_tdist95conf_level] always answers and never increases with the degrees of freedom. *)
Lemma tdist95conf_level_antitone (df1 df2 : Z) :
  1 <= df1 -> df1 <= df2 ->
  exists c1 c2, tdist95conf_level (inject_Z df1) = Ok c1 /\
                tdist95conf_level (inject_Z df2) = Ok c2 /\ (c2 <= c1)%Q.
Proof.
  intros H1 H12.
  destruct (tdist95conf_level_int df1) as [c1 E1]; [lia|].
  destruct (tdist95conf_level_int df2) as [c2 E2]; [lia|].
  exists c1, c2. split; [exact E1|]. split; [exact E2|].
  assert (Hmono : forall k : nat, (level_at (df1 + Z.of_nat k) <= level_at df1)%Q).
  { induction k as [|k IH].
    - rewrite Z.add_0_r. apply Qle_refl.
    - replace (df1 + Z.of_nat (S k)) with (df1 + Z.of_nat k + 1) by lia.
      exact (Qle_trans _ _ _ (level_at_step (df1 + Z.of_nat k) ltac:(lia)) IH). }
  specialize (Hmono (Z.to_nat (df2 - df1))).
  replace (df1 + Z.of_nat (Z.to_nat (df2 - df1))) with df2 in Hmono by lia.
  unfold level_at in Hmono. rewrite E1, E2 in Hmono. exact Hmono.
Qed.

Lemma result_bind_ok {A B} (m : result A) (f : A -> result B) (y : B) :
  (m ≫= f) = Ok y <-> exists x, m = Ok x /\ f x = Ok y.
Proof.
  destruct m as [x|e]; cbn [mbind result_bind]; split.
  - eauto.
  - intros (x' & Hx & Hy). injection Hx as ->. exact Hy.
  - discriminate.
  - intros (x' & Hx & _). discriminate.
Qed.

Lemma set_loops_succeeds_iff (b : bench) (v : pyval) :
  (exists b', set_loops b v = Ok b') <-> exists L, as_int v = Some L /\ 1 <= L.
Proof.
  unfold set_loops. destruct (as_int v) as [L|]; [|split; [intros [? ?]; discriminate|intros (? & ? & _); discriminate]].
  destruct (1 <=? L) eqn:H; split.
  - apply Z.leb_le in H. eauto.
  - eauto.
  - intros [? ?]; discriminate.
  - intros (L' & E & HL). injection E as <-. apply Z.leb_gt in H. lia.
Qed.

Lemma set_inner_loops_succeeds_iff (b : bench) (v : pyval) :
  (exists b', set_inner_loops b v = Ok b') <->
  v = PNone \/ exists i, as_int v = Some i /\ 1 <= i.
Proof.
  unfold set_inner_loops.
  assert (Hint : (exists b', match as_int v with
                  | Some z => if 1 <=? z then Ok (mkBench (b_loops b) (Some z) (b_warmups b) (b_runs b) None None (b_metadata b))
                              else Err (ValueError "inner_loops must be an int >= 1 or None")
                  | None => Err (ValueError "inner_loops must be an int >= 1 or None")
                  end = Ok b') <-> exists i, as_int v = Some i /\ 1 <= i).
  { destruct (as_int v) as [i|]; [|split; [intros [? ?]; discriminate|intros (? & ? & _); discriminate]].
    destruct (1 <=? i) eqn:H; split.
    - apply Z.leb_le in H. eauto.
    - eauto.
    - intros [? ?]; discriminate.
    - intros (i' & E & Hi). injection E as <-. apply Z.leb_gt in H. lia. }
  destruct v; cbn [clear_stats_cache b_loops b_inner_loops b_warmups b_runs b_samples b_median b_metadata];
    try (rewrite Hint; split; [intros H; right; exact H|intros [H|H]; [discriminate|exact H]]).
  split; [intros _; left; reflexivity|intros _; eauto].
Qed.

Lemma set_warmups_succeeds_iff (b : bench) (v : pyval) :
  (exists b', set_warmups b v = Ok b') <-> exists W, as_int v = Some W /\ 0 <= W.
Proof.
  unfold set_warmups. destruct (as_int v) as [W|]; [|split; [intros [? ?]; discriminate|intros (? & ? & _); discriminate]].
  destruct (0 <=? W) eqn:H; split.
  - apply Z.leb_le in H. eauto.
  - eauto.
  - intros [? ?]; discriminate.
  - intros (W' & E & HW). injection E as <-. apply Z.leb_gt in H. lia.
Qed.

Lemma set_name_succeeds_iff (b : bench) (v : pyval) :
  (exists b', set_name b v = Ok b') <-> exists s, v = PStr s /\ py_strip s <> ""%string.
Proof.
  unfold set_name. destruct v as [| | | |s| |];
    try (split; [intros [? ?]; discriminate|intros (? & ? & _); discriminate]).
  destruct (String.eqb (py_strip s) "") eqn:H; split.
  - intros [? ?]; discriminate.
  - intros (s' & E & Hs). injection E as <-. apply String.eqb_eq in H. contradiction.
  - intros _. exists s. split; [reflexivity|]. apply String.eqb_neq. exact H.
  - eauto.
Qed.

(** X21: the constructor [Benchmark(name, loops, inner_loops, warmups, metadata)] succeeds exactly when loops is an int at least 1, inner_loops is None or an int at least 1, warmups is an int at least 0, and name is a string that is not blank. *)
Lemma bench_new_validates (name loops inner_loops warmups : pyval)
    (metadata : option (gmap string pyval)) :
  (exists b, bench_new name loops inner_loops warmups metadata = Ok b) <->
  (exists L, as_int loops = Some L /\ 1 <= L) /\
  (inner_loops = PNone \/ exists i, as_int inner_loops = Some i /\ 1 <= i) /\
  (exists W, as_int warmups = Some W /\ 0 <= W) /\
  (exists s, name = PStr s /\ py_strip s <> ""%string).
Proof.
  unfold bench_new. split.
  - intros [b Hb].
    apply result_bind_ok in Hb as (b1 & H1 & Hb).
    apply result_bind_ok in Hb as (b2 & H2 & Hb).
    apply result_bind_ok in Hb as (b3 & H3 & Hb).
    split; [eapply set_loops_succeeds_iff; eauto|].
    split; [apply (set_inner_loops_succeeds_iff b1); eauto|].
    split; [apply (set_warmups_succeeds_iff b2); eauto|].
    eapply set_name_succeeds_iff. eauto.
  - intros (HL & HI & HW & HN).
    destruct (proj2 (set_loops_succeeds_iff (mkBench 0 None 0 [] None None ∅) loops) HL) as [b1 H1].
    destruct (proj2 (set_inner_loops_succeeds_iff b1 inner_loops) HI) as [b2 H2].
    destruct (proj2 (set_warmups_succeeds_iff b2 warmups) HW) as [b3 H3].
    rewrite H1. cbn [mbind result_bind]. rewrite H2. cbn [mbind result_bind].
    rewrite H3. cbn [mbind result_bind]. apply set_name_succeeds_iff. exact HN.
Qed.

Lemma load_benchmarks_spec (acc s : suite) (items : list (string * pyval)) :
  load_benchmarks acc items = Ok s ->
  NoDup items.*1 /\ (forall k, k ∈ items.*1 -> acc !! k = None) /\
  forall k b, s !! k = Some b <->
    acc !! k = Some b \/ exists data, (k, data) ∈ items /\ json_load data = Ok b.
Proof.
  revert acc. induction items as [|[k data] items IH]; intros acc Hl.
  - cbn [load_benchmarks] in Hl. injection Hl as <-.
    split; [constructor|]. split; [intros k Hk; inversion Hk|].
    intros k b. split; [intros H; left; exact H|].
    intros [H|(d & Hd & _)]; [exact H|inversion Hd].
  - cbn [load_benchmarks] in Hl.
    destruct (json_load data) as [b0|e] eqn:Ej; cbn [mbind result_bind] in Hl; [|discriminate].
    unfold suite_add in Hl. destruct (acc !! k) as [b'|] eqn:Ek; cbn [mbind result_bind] in Hl;
      [discriminate|].
    destruct (IH _ Hl) as (Hnd & Hfree & Hs).
    split; [|split].
    + simpl. constructor; [|exact Hnd].
      intros Hin. specialize (Hfree k Hin). rewrite lookup_insert_eq in Hfree. discriminate.
    + intros k' Hk'. simpl in Hk'. apply elem_of_cons in Hk' as [->|Hk']; [exact Ek|].
      specialize (Hfree k' Hk'). destruct (decide (k' = k)) as [->|Hne].
      * rewrite lookup_insert_eq in Hfree. discriminate.
      * rewrite lookup_insert_ne in Hfree by congruence. exact Hfree.
    + intros k' b. rewrite Hs. destruct (decide (k' = k)) as [->|Hne].
      * rewrite lookup_insert_eq. split.
        -- intros [H|(d & Hd & Hjd)].
           ++ right. exists data. split; [apply list_elem_of_here|congruence].
           ++ exfalso. assert (Hin : k ∈ items.*1).
              { apply list_elem_of_fmap. exists (k, d). split; [reflexivity|exact Hd]. }
              specialize (Hfree k Hin). rewrite lookup_insert_eq in Hfree. discriminate.
        -- intros [H|(d & Hd & Hjd)]; [congruence|].
           apply elem_of_cons in Hd as [Hd|Hd].
           ++ injection Hd as <-. left. congruence.
           ++ right. eauto.
      * rewrite lookup_insert_ne by congruence. split.
        -- intros [H|(d & Hd & Hjd)]; [left; exact H|].
           right. exists d. split; [apply list_elem_of_further; exact Hd|exact Hjd].
        -- intros [H|(d & Hd & Hjd)]; [left; exact H|].
           apply elem_of_cons in Hd as [Hd|Hd]; [congruence|].
           right. eauto.
Qed.

(** X22: when a version-2 document loads, its benchmark names are distinct and the suite holds, under each name of the [benchmarks] dict, the benchmark [_json_load] builds from that name's record, and nothing else. *)
Lemma load_json_v2_records (top d : list (string * pyval)) (s : suite) :
  assoc_get top "version" = Some (PInt JSON_VERSION) ->
  assoc_get top "benchmarks" = Some (PDict d) ->
  load_json (PDict top) = Ok s ->
  NoDup d.*1 /\
  forall name b, s !! name = Some b <->
    exists data, (name, data) ∈ d /\ json_load data = Ok b.
Proof.
  intros Hv Hb Hl. unfold load_json, py_get in Hl. rewrite Hv in Hl.
  cbn [mbind result_bind] in Hl. unfold py_getitem in Hl. rewrite Hb in Hl.
  simpl in Hl.
  destruct (load_benchmarks ∅ d) as [s'|e] eqn:E; cbn [mbind result_bind] in Hl; [|discriminate].
  destruct (size s' =? 0)%nat; [discriminate|]. injection Hl as <-.
  destruct (load_benchmarks_spec _ _ _ E) as (Hnd & _ & Hs).
  split; [exact Hnd|]. intros name b. rewrite Hs, lookup_empty. split.
  - intros [H|H]; [discriminate|exact H].
  - intros H. right. exact H.
Qed.

(** ** Instances of the hypotheses of the file, suite and t-test properties *)

Lemma bench_dump_load_witness :
  bench_wf (mkBench 1 None 0 [[PInt 5; PInt 3]] None None {["name" := PStr "bench"]}) /\
  exists doc b',
    bench_dump (mkBench 1 None 0 [[PInt 5; PInt 3]] None None {["name" := PStr "bench"]}) = Ok doc /\
    bench_load doc = Ok b' /\
    bench_fields b' = bench_fields (mkBench 1 None 0 [[PInt 5; PInt 3]] None None {["name" := PStr "bench"]}).
Proof.
  assert (H : bench_wf (mkBench 1 None 0 [[PInt 5; PInt 3]] None None {["name" := PStr "bench"]}))
    by (apply bench_wfb_sound; vm_compute; reflexivity).
  split; [exact H|]. exact (bench_dump_load _ H).
Defined.

Lemma bench_load_suite_witness :
  load_json (suite_dump (<["a" := mkBench 1 None 0 [[PInt 5]] None None {["name" := PStr "a"]}]>
                           {["b" := mkBench 1 None 0 [[PInt 7]] None None {["name" := PStr "b"]}]})) =
    Ok (<["a" := mkBench 1 None 0 [[PInt 5]] None None {["name" := PStr "a"]}]>
          {["b" := mkBench 1 None 0 [[PInt 7]] None None {["name" := PStr "b"]}]}) /\
  bench_load (suite_dump (<["a" := mkBench 1 None 0 [[PInt 5]] None None {["name" := PStr "a"]}]>
                            {["b" := mkBench 1 None 0 [[PInt 7]] None None {["name" := PStr "b"]}]})) =
    Err (ValueError "expected 1 benchmark, got 2").
Proof.
  assert (H : load_json (suite_dump (<["a" := mkBench 1 None 0 [[PInt 5]] None None {["name" := PStr "a"]}]>
                           {["b" := mkBench 1 None 0 [[PInt 7]] None None {["name" := PStr "b"]}]})) =
    Ok (<["a" := mkBench 1 None 0 [[PInt 5]] None None {["name" := PStr "a"]}]>
          {["b" := mkBench 1 None 0 [[PInt 7]] None None {["name" := PStr "b"]}]}))
    by (vm_compute; reflexivity).
  split; [exact H|]. rewrite (bench_load_suite _ _ H). vm_compute. reflexivity.
Defined.

Lemma json_load_defaults_witness :
  json_load (PDict [("runs", PList [PList [PInt 2; PInt 3]]);
                    ("metadata", PDict [("name", PStr " x ")])]) =
    Ok (mkBench 1 None 0 [[PInt 2; PInt 3]] None None
                (<["name" := PStr (py_strip " x ")]> (dict_of_items [("name", PStr " x ")]))).
Proof.
  apply (json_load_defaults _ [("name", PStr " x ")] " x " [[PInt 2; PInt 3]]);
    try reflexivity.
  - vm_compute. discriminate.
  - intros r [<-|[]]. split; [repeat constructor|simpl; lia].
  - intros r r' [<-|[]] [<-|[]]. reflexivity.
Defined.

Lemma json_load_missing_keys_witness :
  json_load (PDict [("runs", PList [])]) = Err (AttributeError "object has no attribute 'get'") /\
  exists e, json_load (PDict [("metadata", PDict [("name", PStr "x")])]) = Err e.
Proof.
  split.
  - apply (proj1 (json_load_missing_keys _)). reflexivity.
  - apply (proj2 (json_load_missing_keys _)). reflexivity.
Defined.

Lemma tdist95conf_level_antitone_witness :
  (1 <= 3 /\ 3 <= 45) /\
  exists c1 c2, tdist95conf_level (inject_Z 3) = Ok c1 /\
                tdist95conf_level (inject_Z 45) = Ok c2 /\ (c2 <= c1)%Q.
Proof.
  split; [lia|]. apply tdist95conf_level_antitone; lia.
Defined.


Lemma load_json_v2_records_witness :
  NoDup [("a", PDict [("runs", PList [PList [PInt 5]]);
                      ("metadata", PDict [("name", PStr "a")])])].*1 /\
  (({["a" := mkBench 1 None 0 [[PInt 5]] None None {["name" := PStr "a"]}]} : suite) !! "a" =
     Some (mkBench 1 None 0 [[PInt 5]] None None {["name" := PStr "a"]}) <->
   exists data, ("a", data) ∈ [("a", PDict [("runs", PList [PList [PInt 5]]);
                                             ("metadata", PDict [("name", PStr "a")])])] /\
     json_load data = Ok (mkBench 1 None 0 [[PInt 5]] None None {["name" := PStr "a"]})).
Proof.
  destruct (load_json_v2_records
              [("version", PInt 2);
               ("benchmarks", PDict [("a", PDict [("runs", PList [PList [PInt 5]]);
                                                  ("metadata", PDict [("name", PStr "a")])])])]
              [("a", PDict [("runs", PList [PList [PInt 5]]);
                            ("metadata", PDict [("name", PStr "a")])])]
              {["a" := mkBench 1 None 0 [[PInt 5]] None None {["name" := PStr "a"]}]})
    as [H1 H2]; [reflexivity|reflexivity|vm_compute; reflexivity|].
  split; [exact H1|apply H2].
Defined.
